(** * qdrant-client: the grpc/rest converters and the collection migrator

    A shallow embedding of [qdrant_client/conversions/conversion.py] and
    [qdrant_client/migrate/migrate.py].

    Python values are kept as the code sees them: integers as [Z], strings as
    [string], floats as IEEE-754 binary64 ([PrimFloat.float]), [None] as the
    [None] of [option], a raised exception as the [Raise] branch of [Result].
    Python sets are [gset string]. *)

From Stdlib Require Import ZArith String List Bool Floats.
From stdpp Require Import base option list gmap strings.

Local Open Scope string_scope.
Local Open Scope list_scope.
Local Open Scope Z_scope.

(** ** Truthiness *)

(** [bool(x)], as an [if x:] tests it. *)
Class Truthy (A : Type) := truthy : A -> bool.

#[global] Instance truthy_int : Truthy Z := fun n => negb (n =? 0).
#[global] Instance truthy_bool : Truthy bool := fun b => b.
#[global] Instance truthy_str : Truthy string := fun s => negb (String.eqb s "").
#[global] Instance truthy_float : Truthy float := fun x => negb (PrimFloat.eqb x 0%float).
#[global] Instance truthy_list {A} : Truthy (list A) :=
  fun l => match l with [] => false | _ => true end.

(** An optional field is populated when it is not [None]. *)
Definition given {A} (o : option A) : bool :=
  match o with Some _ => true | None => false end.

(** ** The grpc models *)

(** Modelled from the spec: the generated message classes of [qdrant_client.grpc]
    are outside these modules. They are kept as the converter reads them: a
    wide struct in which every field holds its value or its default (0, the
    empty string, [False], the empty list, the empty message), and in which a
    oneof group remembers which of its fields was set. A message is truthy
    when one of its fields is not at its default.
    An enum has the members the converter names, and any other number. *)
Module grpc.

Inductive Distance := Cosine | Euclid | Dot | Distance_unrecognized (value : Z).
Inductive UpdateStatus := Acknowledged | Completed | UpdateStatus_unrecognized (value : Z).
Inductive CollectionStatus := Green | Yellow | Red | CollectionStatus_unrecognized (value : Z).
Inductive PayloadSchemaType :=
  Keyword | Integer | Float | Geo | PayloadSchemaType_unrecognized (value : Z).

Record GeoPoint := { GeoPoint_lon : float; GeoPoint_lat : float }.
Record GeoRadius := { GeoRadius_center : GeoPoint; GeoRadius_radius : float }.
Record GeoBoundingBox :=
  { GeoBoundingBox_top_left : GeoPoint; GeoBoundingBox_bottom_right : GeoPoint }.
Record Range :=
  { Range_lt : option float; Range_gt : option float;
    Range_gte : option float; Range_lte : option float }.
Record ValuesCount :=
  { ValuesCount_lt : option Z; ValuesCount_gt : option Z;
    ValuesCount_gte : option Z; ValuesCount_lte : option Z }.

(** oneof match_value { keyword, integer, boolean } *)
Record Match :=
  { Match_keyword : string; Match_integer : Z; Match_boolean : bool;
    Match_match_value : option string }.

(** oneof point_id_options { num, uuid } *)
Record PointId :=
  { PointId_num : Z; PointId_uuid : string; PointId_point_id_options : option string }.

Record HasIdCondition := { HasIdCondition_has_id : list PointId }.
Record IsEmptyCondition := { IsEmptyCondition_key : string }.
Record FieldCondition :=
  { FieldCondition_key : string;
    FieldCondition_match : Match;
    FieldCondition_range : Range;
    FieldCondition_geo_bounding_box : GeoBoundingBox;
    FieldCondition_geo_radius : GeoRadius;
    FieldCondition_values_count : ValuesCount }.

(** oneof condition_one_of { field, is_empty, has_id, filter } *)
Inductive Condition :=
| mkCondition (field : FieldCondition) (is_empty : IsEmptyCondition)
              (has_id : HasIdCondition) (filter : Filter)
              (condition_one_of : option string)
with Filter :=
| mkFilter (should must must_not : list Condition).

Definition Condition_field (c : Condition) := let 'mkCondition f _ _ _ _ := c in f.
Definition Condition_is_empty (c : Condition) := let 'mkCondition _ e _ _ _ := c in e.
Definition Condition_has_id (c : Condition) := let 'mkCondition _ _ h _ _ := c in h.
Definition Condition_filter (c : Condition) := let 'mkCondition _ _ _ f _ := c in f.
Definition Condition_condition_one_of (c : Condition) :=
  let 'mkCondition _ _ _ _ g := c in g.
Definition Filter_should (f : Filter) := let 'mkFilter s _ _ := f in s.
Definition Filter_must (f : Filter) := let 'mkFilter _ m _ := f in m.
Definition Filter_must_not (f : Filter) := let 'mkFilter _ _ n := f in n.

Record HnswConfigDiff :=
  { HnswConfigDiff_m : option Z;
    HnswConfigDiff_ef_construct : option Z;
    HnswConfigDiff_full_scan_threshold : option Z }.
Record OptimizersConfigDiff :=
  { OptimizersConfigDiff_deleted_threshold : option float;
    OptimizersConfigDiff_vacuum_min_vector_number : option Z;
    OptimizersConfigDiff_default_segment_number : option Z;
    OptimizersConfigDiff_max_segment_size : option Z;
    OptimizersConfigDiff_memmap_threshold : option Z;
    OptimizersConfigDiff_indexing_threshold : option Z;
    OptimizersConfigDiff_payload_indexing_threshold : option Z;
    OptimizersConfigDiff_flush_interval_sec : option Z;
    OptimizersConfigDiff_max_optimization_threads : option Z }.
Record WalConfigDiff :=
  { WalConfigDiff_wal_capacity_mb : option Z;
    WalConfigDiff_wal_segments_ahead : option Z }.
Record CollectionParams :=
  { CollectionParams_vector_size : Z;
    CollectionParams_distance : Distance;
    CollectionParams_shard_number : Z }.
Record CollectionConfig :=
  { CollectionConfig_params : CollectionParams;
    CollectionConfig_hnsw_config : HnswConfigDiff;
    CollectionConfig_optimizer_config : OptimizersConfigDiff;
    CollectionConfig_wal_config : WalConfigDiff }.
Record UpdateResult :=
  { UpdateResult_operation_id : Z; UpdateResult_status : UpdateStatus }.

(** The messages with no field set. *)
Definition GeoPoint_ : GeoPoint := {| GeoPoint_lon := 0; GeoPoint_lat := 0 |}.
Definition GeoRadius_ : GeoRadius :=
  {| GeoRadius_center := GeoPoint_; GeoRadius_radius := 0 |}.
Definition GeoBoundingBox_ : GeoBoundingBox :=
  {| GeoBoundingBox_top_left := GeoPoint_; GeoBoundingBox_bottom_right := GeoPoint_ |}.
Definition Range_ : Range :=
  {| Range_lt := None; Range_gt := None; Range_gte := None; Range_lte := None |}.
Definition ValuesCount_ : ValuesCount :=
  {| ValuesCount_lt := None; ValuesCount_gt := None;
     ValuesCount_gte := None; ValuesCount_lte := None |}.
Definition Match_ : Match :=
  {| Match_keyword := ""; Match_integer := 0; Match_boolean := false;
     Match_match_value := None |}.
Definition PointId_ : PointId :=
  {| PointId_num := 0; PointId_uuid := ""; PointId_point_id_options := None |}.
Definition HasIdCondition_ : HasIdCondition := {| HasIdCondition_has_id := [] |}.
Definition IsEmptyCondition_ : IsEmptyCondition := {| IsEmptyCondition_key := "" |}.
Definition FieldCondition_ : FieldCondition :=
  {| FieldCondition_key := "";
     FieldCondition_match := Match_;
     FieldCondition_range := Range_;
     FieldCondition_geo_bounding_box := GeoBoundingBox_;
     FieldCondition_geo_radius := GeoRadius_;
     FieldCondition_values_count := ValuesCount_ |}.
Definition Filter_ : Filter := mkFilter [] [] [].
Definition Condition_ : Condition :=
  mkCondition FieldCondition_ IsEmptyCondition_ HasIdCondition_ Filter_ None.

(** The constructor calls with one keyword of a oneof group:
    [Match(keyword=s)], [PointId(num=n)], [Condition(field=c)], ... *)
Definition Match_of_keyword (s : string) : Match :=
  {| Match_keyword := s; Match_integer := 0; Match_boolean := false;
     Match_match_value := Some "keyword" |}.
Definition Match_of_integer (n : Z) : Match :=
  {| Match_keyword := ""; Match_integer := n; Match_boolean := false;
     Match_match_value := Some "integer" |}.
Definition Match_of_boolean (b : bool) : Match :=
  {| Match_keyword := ""; Match_integer := 0; Match_boolean := b;
     Match_match_value := Some "boolean" |}.
Definition PointId_of_num (n : Z) : PointId :=
  {| PointId_num := n; PointId_uuid := ""; PointId_point_id_options := Some "num" |}.
Definition PointId_of_uuid (s : string) : PointId :=
  {| PointId_num := 0; PointId_uuid := s; PointId_point_id_options := Some "uuid" |}.
Definition Condition_of_field (c : FieldCondition) : Condition :=
  mkCondition c IsEmptyCondition_ HasIdCondition_ Filter_ (Some "field").
Definition Condition_of_is_empty (c : IsEmptyCondition) : Condition :=
  mkCondition FieldCondition_ c HasIdCondition_ Filter_ (Some "is_empty").
Definition Condition_of_has_id (c : HasIdCondition) : Condition :=
  mkCondition FieldCondition_ IsEmptyCondition_ c Filter_ (Some "has_id").
Definition Condition_of_filter (f : Filter) : Condition :=
  mkCondition FieldCondition_ IsEmptyCondition_ HasIdCondition_ f (Some "filter").

#[global] Instance truthy_GeoPoint : Truthy GeoPoint :=
  fun m => truthy (GeoPoint_lon m) || truthy (GeoPoint_lat m).
#[global] Instance truthy_GeoRadius : Truthy GeoRadius :=
  fun m => truthy (GeoRadius_center m) || truthy (GeoRadius_radius m).
#[global] Instance truthy_GeoBoundingBox : Truthy GeoBoundingBox :=
  fun m => truthy (GeoBoundingBox_top_left m) || truthy (GeoBoundingBox_bottom_right m).
#[global] Instance truthy_Range : Truthy Range :=
  fun m => given (Range_lt m) || given (Range_gt m)
           || given (Range_gte m) || given (Range_lte m).
#[global] Instance truthy_ValuesCount : Truthy ValuesCount :=
  fun m => given (ValuesCount_lt m) || given (ValuesCount_gt m)
           || given (ValuesCount_gte m) || given (ValuesCount_lte m).
#[global] Instance truthy_Match : Truthy Match :=
  fun m => truthy (Match_keyword m) || truthy (Match_integer m) || truthy (Match_boolean m).
#[global] Instance truthy_PointId : Truthy PointId :=
  fun m => truthy (PointId_num m) || truthy (PointId_uuid m).
#[global] Instance truthy_HasIdCondition : Truthy HasIdCondition :=
  fun m => truthy (HasIdCondition_has_id m).
#[global] Instance truthy_IsEmptyCondition : Truthy IsEmptyCondition :=
  fun m => truthy (IsEmptyCondition_key m).
#[global] Instance truthy_FieldCondition : Truthy FieldCondition :=
  fun m => truthy (FieldCondition_key m)
           || truthy (FieldCondition_match m)
           || truthy (FieldCondition_range m)
           || truthy (FieldCondition_geo_bounding_box m)
           || truthy (FieldCondition_geo_radius m)
           || truthy (FieldCondition_values_count m).
#[global] Instance truthy_Filter : Truthy Filter :=
  fun m => truthy (Filter_should m) || truthy (Filter_must m) || truthy (Filter_must_not m).

(** The messages around a collection's description. A field that a
    constructor call sets to [None] reads as a field that was not set. *)
Record CollectionDescription := { CollectionDescription_name : string }.
Record OptimizerStatus := { OptimizerStatus_ok : bool; OptimizerStatus_error : string }.
Record PayloadSchemaInfo := { PayloadSchemaInfo_data_type : PayloadSchemaType }.

(** What the [status] of a CollectionInfo holds: the enum, or the object that
    [RestToGrpc.convert_collection_status] returns. *)
Inductive CollectionInfo_status_value :=
| Status_enum (status : CollectionStatus)
| Status_object (result : UpdateResult).

Record CollectionInfo :=
  { CollectionInfo_status : CollectionInfo_status_value;
    CollectionInfo_optimizer_status : OptimizerStatus;
    CollectionInfo_vectors_count : Z;
    CollectionInfo_segments_count : Z;
    CollectionInfo_disk_data_size : Z;
    CollectionInfo_ram_data_size : Z;
    CollectionInfo_config : CollectionConfig;
    CollectionInfo_payload_schema : list (string * PayloadSchemaInfo) }.

Record PointsIdsList := { PointsIdsList_ids : list PointId }.

(** oneof points_selector_one_of { points, filter } *)
Record PointsSelector :=
  { PointsSelector_points : PointsIdsList;
    PointsSelector_filter : Filter;
    PointsSelector_points_selector_one_of : option string }.

Definition HnswConfigDiff_ : HnswConfigDiff :=
  {| HnswConfigDiff_m := None;
     HnswConfigDiff_ef_construct := None;
     HnswConfigDiff_full_scan_threshold := None |}.
Definition OptimizersConfigDiff_ : OptimizersConfigDiff :=
  {| OptimizersConfigDiff_deleted_threshold := None;
     OptimizersConfigDiff_vacuum_min_vector_number := None;
     OptimizersConfigDiff_default_segment_number := None;
     OptimizersConfigDiff_max_segment_size := None;
     OptimizersConfigDiff_memmap_threshold := None;
     OptimizersConfigDiff_indexing_threshold := None;
     OptimizersConfigDiff_payload_indexing_threshold := None;
     OptimizersConfigDiff_flush_interval_sec := None;
     OptimizersConfigDiff_max_optimization_threads := None |}.
Definition WalConfigDiff_ : WalConfigDiff :=
  {| WalConfigDiff_wal_capacity_mb := None; WalConfigDiff_wal_segments_ahead := None |}.
Definition CollectionParams_ : CollectionParams :=
  {| CollectionParams_vector_size := 0;
     CollectionParams_distance := Distance_unrecognized 0;
     CollectionParams_shard_number := 0 |}.
Definition CollectionConfig_ : CollectionConfig :=
  {| CollectionConfig_params := CollectionParams_;
     CollectionConfig_hnsw_config := HnswConfigDiff_;
     CollectionConfig_optimizer_config := OptimizersConfigDiff_;
     CollectionConfig_wal_config := WalConfigDiff_ |}.


End grpc.

(** ** The rest models *)

(** A Python value of a union type: an id is an [int] or a [str], the value
    of a [MatchValue] a [bool], an [int] or a [str], a cursor an id or [None]. *)
Inductive PyValue :=
| PyBool (b : bool)
| PyInt (n : Z)
| PyStr (s : string)
| PyFloat (x : float)
| PyNone.

(** Modelled from the spec: the pydantic models of [qdrant_client.http.models]
    are outside these modules. A union is the sum of its members; an enum has
    the members the converter names, and any other string. *)
Module http.

Inductive Distance := COSINE | EUCLID | DOT | Distance_other (value : string).
Inductive UpdateStatus := ACKNOWLEDGED | COMPLETED | UpdateStatus_other (value : string).
Inductive CollectionStatus := GREEN | YELLOW | RED | CollectionStatus_other (value : string).
Inductive PayloadSchemaType :=
  KEYWORD | INTEGER | FLOAT | GEO | PayloadSchemaType_other (value : string).

Record GeoPoint := { GeoPoint_lat : float; GeoPoint_lon : float }.
Record GeoRadius := { GeoRadius_center : GeoPoint; GeoRadius_radius : float }.
Record GeoBoundingBox :=
  { GeoBoundingBox_bottom_right : GeoPoint; GeoBoundingBox_top_left : GeoPoint }.
Record Range :=
  { Range_gt : option float; Range_gte : option float;
    Range_lt : option float; Range_lte : option float }.
Record ValuesCount :=
  { ValuesCount_gt : option Z; ValuesCount_gte : option Z;
    ValuesCount_lt : option Z; ValuesCount_lte : option Z }.

(** Match = Union[MatchValue, MatchKeyword, MatchInteger] *)
Inductive Match :=
| MatchValue (value : PyValue)
| MatchKeyword (keyword : string)
| MatchInteger (integer : Z).

(** ExtendedPointId = Union[StrictInt, StrictStr] *)
Definition ExtendedPointId := PyValue.

Record PayloadField := { PayloadField_key : string }.
Record IsEmptyCondition := { IsEmptyCondition_is_empty : PayloadField }.
Record HasIdCondition := { HasIdCondition_has_id : list ExtendedPointId }.
Record FieldCondition :=
  { FieldCondition_key : string;
    FieldCondition_geo_bounding_box : option GeoBoundingBox;
    FieldCondition_geo_radius : option GeoRadius;
    FieldCondition_match : option Match;
    FieldCondition_range : option Range;
    FieldCondition_values_count : option ValuesCount }.

(** Condition = Union[FieldCondition, IsEmptyCondition, HasIdCondition, Filter] *)
Inductive Condition :=
| Condition_FieldCondition (c : FieldCondition)
| Condition_IsEmptyCondition (c : IsEmptyCondition)
| Condition_HasIdCondition (c : HasIdCondition)
| Condition_Filter (f : Filter)
with Filter :=
| mkFilter (must should must_not : option (list Condition)).

Record HnswConfig :=
  { HnswConfig_ef_construct : option Z;
    HnswConfig_m : option Z;
    HnswConfig_full_scan_threshold : option Z }.
Record OptimizersConfig :=
  { OptimizersConfig_default_segment_number : option Z;
    OptimizersConfig_deleted_threshold : option float;
    OptimizersConfig_flush_interval_sec : option Z;
    OptimizersConfig_indexing_threshold : option Z;
    OptimizersConfig_max_optimization_threads : option Z;
    OptimizersConfig_max_segment_size : option Z;
    OptimizersConfig_memmap_threshold : option Z;
    OptimizersConfig_payload_indexing_threshold : option Z;
    OptimizersConfig_vacuum_min_vector_number : option Z }.
Record WalConfig :=
  { WalConfig_wal_capacity_mb : option Z;
    WalConfig_wal_segments_ahead : option Z }.
Record CollectionParams :=
  { CollectionParams_distance : Distance;
    CollectionParams_shard_number : Z;
    CollectionParams_vector_size : Z }.
Record CollectionConfig :=
  { CollectionConfig_hnsw_config : HnswConfig;
    CollectionConfig_optimizer_config : OptimizersConfig;
    CollectionConfig_params : CollectionParams;
    CollectionConfig_wal_config : WalConfig }.
Record UpdateResult :=
  { UpdateResult_operation_id : Z; UpdateResult_status : UpdateStatus }.

Record HnswConfigDiff :=
  { HnswConfigDiff_ef_construct : option Z;
    HnswConfigDiff_full_scan_threshold : option Z;
    HnswConfigDiff_m : option Z }.
Record WalConfigDiff :=
  { WalConfigDiff_wal_capacity_mb : option Z;
    WalConfigDiff_wal_segments_ahead : option Z }.
Record OptimizersConfigDiff :=
  { OptimizersConfigDiff_default_segment_number : option Z;
    OptimizersConfigDiff_deleted_threshold : option float;
    OptimizersConfigDiff_flush_interval_sec : option Z;
    OptimizersConfigDiff_indexing_threshold : option Z;
    OptimizersConfigDiff_max_optimization_threads : option Z;
    OptimizersConfigDiff_max_segment_size : option Z;
    OptimizersConfigDiff_memmap_threshold : option Z;
    OptimizersConfigDiff_payload_indexing_threshold : option Z;
    OptimizersConfigDiff_vacuum_min_vector_number : option Z }.

Record CollectionDescription := { CollectionDescription_name : string }.

(** OptimizersStatus = Union[OptimizersStatusOneOf, OptimizersStatusOneOf1] *)
Inductive OptimizersStatus :=
| OptimizersStatusOneOf
| OptimizersStatusOneOf1 (error : string).

Record PayloadIndexInfo := { PayloadIndexInfo_data_type : PayloadSchemaType }.

Record CollectionInfo :=
  { CollectionInfo_config : option CollectionConfig;
    CollectionInfo_disk_data_size : Z;
    CollectionInfo_optimizer_status : OptimizersStatus;
    CollectionInfo_payload_schema : option (list (string * PayloadIndexInfo));
    CollectionInfo_ram_data_size : Z;
    CollectionInfo_segments_count : Z;
    CollectionInfo_status : CollectionStatus;
    CollectionInfo_vectors_count : Z }.

(** PointsSelector = Union[PointIdsList, FilterSelector] *)
Inductive PointsSelector :=
| PointIdsList (points : list ExtendedPointId)
| FilterSelector (filter : Filter).

End http.

(** ** Exceptions and results *)

(** The value an f-string prints after the fixed text of a message. *)
Inductive Shown :=
| ShownList (names : list string)
| ShownSet (names : gset string)
| ShownCounts (source dest : Z)
| Shown_grpc_PointId (model : grpc.PointId)
| Shown_grpc_Match (model : grpc.Match)
| Shown_http_Distance (model : http.Distance)
| Shown_http_UpdateStatus (model : http.UpdateStatus)
| Shown_http_CollectionStatus (model : http.CollectionStatus)
| Shown_http_PayloadSchemaType (model : http.PayloadSchemaType)
| Shown_http_Match (model : http.Match)
| Shown_http_ExtendedPointId (model : http.ExtendedPointId).

Inductive Exception :=
| NotImplementedError
| AttributeError (attr : string)
| ValidationError
| ValueError (message : string) (shown : Shown)
| AssertionError (message : string) (shown : Shown).

Inductive Result (A : Type) :=
| Return (a : A)
| Raise (e : Exception).
Arguments Return {A} a.
Arguments Raise {A} e.

Definition bind {A B} (r : Result A) (k : A -> Result B) : Result B :=
  match r with
  | Return a => k a
  | Raise e => Raise e
  end.

Declare Scope py_scope.
Delimit Scope py_scope with py.
Notation "x <- r ;; k" := (bind r (fun x => k))
  (at level 100, r at next level, right associativity) : py_scope.
Local Open Scope py_scope.

(** A list comprehension [[f(x) for x in l]]: left to right, the first
    exception ends it. *)
Definition comprehension {A B} (f : A -> Result B) : list A -> Result (list B) :=
  fix go l :=
    match l with
    | [] => Return []
    | x :: l' => y <- f x ;; ys <- go l' ;; Return (y :: ys)
    end.

(** A pydantic field of type [List[T]] refuses a [None] among its elements. *)
Definition validated {A} : list (option A) -> Result (list A) :=
  fix go l :=
    match l with
    | [] => Return []
    | None :: _ => Raise ValidationError
    | Some x :: l' => xs <- go l' ;; Return (x :: xs)
    end.

(** ** GrpcToRest *)

Module GrpcToRest.

Definition convert_geo_point (model : grpc.GeoPoint) : Result http.GeoPoint :=
  Return {| http.GeoPoint_lat := grpc.GeoPoint_lat model;
            http.GeoPoint_lon := grpc.GeoPoint_lon model |}.

Definition convert_range (model : grpc.Range) : Result http.Range :=
  Return {| http.Range_gt := grpc.Range_gt model;
            http.Range_gte := grpc.Range_gte model;
            http.Range_lt := grpc.Range_lt model;
            http.Range_lte := grpc.Range_lte model |}.

Definition convert_geo_radius (model : grpc.GeoRadius) : Result http.GeoRadius :=
  center <- convert_geo_point (grpc.GeoRadius_center model) ;;
  Return {| http.GeoRadius_center := center;
            http.GeoRadius_radius := grpc.GeoRadius_radius model |}.

Definition convert_values_count (model : grpc.ValuesCount) : Result http.ValuesCount :=
  Return {| http.ValuesCount_gt := grpc.ValuesCount_gt model;
            http.ValuesCount_gte := grpc.ValuesCount_gte model;
            http.ValuesCount_lt := grpc.ValuesCount_lt model;
            http.ValuesCount_lte := grpc.ValuesCount_lte model |}.

Definition convert_geo_bounding_box (model : grpc.GeoBoundingBox)
  : Result http.GeoBoundingBox :=
  bottom_right <- convert_geo_point (grpc.GeoBoundingBox_bottom_right model) ;;
  top_left <- convert_geo_point (grpc.GeoBoundingBox_top_left model) ;;
  Return {| http.GeoBoundingBox_bottom_right := bottom_right;
            http.GeoBoundingBox_top_left := top_left |}.

Definition convert_distance (model : grpc.Distance) : Result http.Distance :=
  match model with
  | grpc.Cosine => Return http.COSINE
  | grpc.Euclid => Return http.EUCLID
  | grpc.Dot => Return http.DOT
  | _ => Raise NotImplementedError
  end.

Definition convert_update_status (model : grpc.UpdateStatus) : Result http.UpdateStatus :=
  match model with
  | grpc.Acknowledged => Return http.ACKNOWLEDGED
  | grpc.Completed => Return http.COMPLETED
  | _ => Raise NotImplementedError
  end.

Definition convert_update_result (model : grpc.UpdateResult) : Result http.UpdateResult :=
  status <- convert_update_status (grpc.UpdateResult_status model) ;;
  Return {| http.UpdateResult_operation_id := grpc.UpdateResult_operation_id model;
            http.UpdateResult_status := status |}.

Definition convert_point_id (model : grpc.PointId) : Result http.ExtendedPointId :=
  if truthy (grpc.PointId_num model) then Return (PyInt (grpc.PointId_num model))
  else if truthy (grpc.PointId_uuid model) then Return (PyStr (grpc.PointId_uuid model))
  else Raise (ValueError "invalid PointId model: " (Shown_grpc_PointId model)).

Definition convert_has_id_condition (model : grpc.HasIdCondition)
  : Result http.HasIdCondition :=
  has_id <- comprehension convert_point_id (grpc.HasIdCondition_has_id model) ;;
  Return {| http.HasIdCondition_has_id := has_id |}.

Definition convert_is_empty_condition (model : grpc.IsEmptyCondition)
  : Result http.IsEmptyCondition :=
  Return {| http.IsEmptyCondition_is_empty :=
              {| http.PayloadField_key := grpc.IsEmptyCondition_key model |} |}.

Definition convert_match (model : grpc.Match) : Result http.Match :=
  if truthy (grpc.Match_integer model) then
    Return (http.MatchValue (PyInt (grpc.Match_integer model)))
  else if truthy (grpc.Match_boolean model) then
    Return (http.MatchValue (PyBool (grpc.Match_boolean model)))
  else if truthy (grpc.Match_keyword model) then
    Return (http.MatchValue (PyStr (grpc.Match_keyword model)))
  else Raise (ValueError "invalid Match model: " (Shown_grpc_Match model)).

(** [f(x) if x else None] *)
Definition if_truthy {A B} `{Truthy A} (f : A -> Result B) (x : A) : Result (option B) :=
  if truthy x then (y <- f x ;; Return (Some y)) else Return None.

Definition convert_field_condition (model : grpc.FieldCondition)
  : Result http.FieldCondition :=
  geo_bounding_box <-
    if_truthy convert_geo_bounding_box (grpc.FieldCondition_geo_bounding_box model) ;;
  geo_radius <- if_truthy convert_geo_radius (grpc.FieldCondition_geo_radius model) ;;
  match_ <- if_truthy convert_match (grpc.FieldCondition_match model) ;;
  range_ <- if_truthy convert_range (grpc.FieldCondition_range model) ;;
  values_count <- if_truthy convert_values_count (grpc.FieldCondition_values_count model) ;;
  Return {| http.FieldCondition_key := grpc.FieldCondition_key model;
            http.FieldCondition_geo_bounding_box := geo_bounding_box;
            http.FieldCondition_geo_radius := geo_radius;
            http.FieldCondition_match := match_;
            http.FieldCondition_range := range_;
            http.FieldCondition_values_count := values_count |}.

(** The body of [convert_filter], over the [convert_condition] it calls.
    The three comprehensions run first, then [http.Filter] validates. *)
Definition convert_filter_body
    (convert_condition : grpc.Condition -> Result (option http.Condition))
    (model : grpc.Filter) : Result http.Filter :=
  must <- comprehension convert_condition (grpc.Filter_must model) ;;
  should <- comprehension convert_condition (grpc.Filter_should model) ;;
  must_not <- comprehension convert_condition (grpc.Filter_must_not model) ;;
  must <- validated must ;;
  should <- validated should ;;
  must_not <- validated must_not ;;
  Return (http.mkFilter (Some must) (Some should) (Some must_not)).

(** No branch taken: the function ends without a [return], its value is
    [None]. *)
Fixpoint convert_condition (model : grpc.Condition) : Result (option http.Condition) :=
  match model with
  | grpc.mkCondition field is_empty has_id filter _ =>
    if truthy field then
      c <- convert_field_condition field ;;
      Return (Some (http.Condition_FieldCondition c))
    else if truthy filter then
      f <- convert_filter_body convert_condition filter ;;
      Return (Some (http.Condition_Filter f))
    else if truthy has_id then
      c <- convert_has_id_condition has_id ;;
      Return (Some (http.Condition_HasIdCondition c))
    else if truthy is_empty then
      c <- convert_is_empty_condition is_empty ;;
      Return (Some (http.Condition_IsEmptyCondition c))
    else Return None
  end.

Definition convert_filter (model : grpc.Filter) : Result http.Filter :=
  convert_filter_body convert_condition model.

Definition convert_hnsw_config (model : grpc.HnswConfigDiff) : Result http.HnswConfig :=
  Return {| http.HnswConfig_ef_construct := grpc.HnswConfigDiff_ef_construct model;
            http.HnswConfig_m := grpc.HnswConfigDiff_m model;
            http.HnswConfig_full_scan_threshold :=
              grpc.HnswConfigDiff_full_scan_threshold model |}.

Definition convert_optimizer_config (model : grpc.OptimizersConfigDiff)
  : Result http.OptimizersConfig :=
  Return {| http.OptimizersConfig_default_segment_number :=
              grpc.OptimizersConfigDiff_default_segment_number model;
            http.OptimizersConfig_deleted_threshold :=
              grpc.OptimizersConfigDiff_deleted_threshold model;
            http.OptimizersConfig_flush_interval_sec :=
              grpc.OptimizersConfigDiff_flush_interval_sec model;
            http.OptimizersConfig_indexing_threshold :=
              grpc.OptimizersConfigDiff_indexing_threshold model;
            http.OptimizersConfig_max_optimization_threads :=
              grpc.OptimizersConfigDiff_max_optimization_threads model;
            http.OptimizersConfig_max_segment_size :=
              grpc.OptimizersConfigDiff_max_segment_size model;
            http.OptimizersConfig_memmap_threshold :=
              grpc.OptimizersConfigDiff_memmap_threshold model;
            http.OptimizersConfig_payload_indexing_threshold :=
              grpc.OptimizersConfigDiff_payload_indexing_threshold model;
            http.OptimizersConfig_vacuum_min_vector_number :=
              grpc.OptimizersConfigDiff_vacuum_min_vector_number model |}.

(** The class body defines [convert_collection_config] and
    [convert_collection_params] twice. The second [def] rebinds the name, so
    these are the methods of the class. *)
Definition convert_collection_config (model : grpc.CollectionConfig)
  : Result http.CollectionConfig :=
  Raise NotImplementedError.

Definition convert_collection_params (model : grpc.CollectionParams)
  : Result http.CollectionParams :=
  Raise NotImplementedError.

(** The first definitions of the two names, which the class no longer
    holds. A call through [cls] inside them reaches the methods of the
    class, above. *)
Module Shadowed.

(** [model.vector_sie]: a grpc.CollectionParams has no such attribute. *)
Definition convert_collection_params (model : grpc.CollectionParams)
  : Result http.CollectionParams :=
  distance <- convert_distance (grpc.CollectionParams_distance model) ;;
  let shard_number := grpc.CollectionParams_shard_number model in
  vector_size <- (Raise (AttributeError "vector_sie") : Result Z) ;;
  Return {| http.CollectionParams_distance := distance;
            http.CollectionParams_shard_number := shard_number;
            http.CollectionParams_vector_size := vector_size |}.

(** [cls.convert_wal_config]: GrpcToRest defines no such method. *)
Definition convert_collection_config (model : grpc.CollectionConfig)
  : Result http.CollectionConfig :=
  hnsw_config <- convert_hnsw_config (grpc.CollectionConfig_hnsw_config model) ;;
  optimizer_config <-
    convert_optimizer_config (grpc.CollectionConfig_optimizer_config model) ;;
  params <- GrpcToRest.convert_collection_params (grpc.CollectionConfig_params model) ;;
  wal_config <- (Raise (AttributeError "convert_wal_config") : Result http.WalConfig) ;;
  Return {| http.CollectionConfig_hnsw_config := hnsw_config;
            http.CollectionConfig_optimizer_config := optimizer_config;
            http.CollectionConfig_params := params;
            http.CollectionConfig_wal_config := wal_config |}.

End Shadowed.

Definition convert_collection_description (model : grpc.CollectionDescription)
  : Result http.CollectionDescription :=
  Return {| http.CollectionDescription_name := grpc.CollectionDescription_name model |}.

(** The keyword arguments are evaluated in the order they are written.
    [cls.convert_optimizer_status], [cls.convert_payload_schema] and
    [cls.convert_collection_status]: GrpcToRest defines no such methods. *)
Definition convert_collection_info (model : grpc.CollectionInfo)
  : Result http.CollectionInfo :=
  config <- convert_collection_config (grpc.CollectionInfo_config model) ;;
  let disk_data_size := grpc.CollectionInfo_disk_data_size model in
  optimizer_status <-
    (Raise (AttributeError "convert_optimizer_status") : Result http.OptimizersStatus) ;;
  payload_schema <-
    (Raise (AttributeError "convert_payload_schema")
     : Result (list (string * http.PayloadIndexInfo))) ;;
  let ram_data_size := grpc.CollectionInfo_ram_data_size model in
  let segments_count := grpc.CollectionInfo_segments_count model in
  status <-
    (Raise (AttributeError "convert_collection_status") : Result http.CollectionStatus) ;;
  Return {| http.CollectionInfo_config := Some config;
            http.CollectionInfo_disk_data_size := disk_data_size;
            http.CollectionInfo_optimizer_status := optimizer_status;
            http.CollectionInfo_payload_schema := Some payload_schema;
            http.CollectionInfo_ram_data_size := ram_data_size;
            http.CollectionInfo_segments_count := segments_count;
            http.CollectionInfo_status := status;
            http.CollectionInfo_vectors_count := grpc.CollectionInfo_vectors_count model |}.

End GrpcToRest.

(** ** RestToGrpc *)

Module RestToGrpc.

Definition convert_payload_schema_type (model : http.PayloadSchemaType)
  : Result grpc.PayloadSchemaType :=
  match model with
  | http.KEYWORD => Return grpc.Keyword
  | http.INTEGER => Return grpc.Integer
  | http.FLOAT => Return grpc.Float
  | http.GEO => Return grpc.Geo
  | _ => Raise (ValueError "invalid PayloadSchemaType model: "
                           (Shown_http_PayloadSchemaType model))
  end.

Definition convert_update_stats (model : http.UpdateStatus) : Result grpc.UpdateStatus :=
  match model with
  | http.COMPLETED => Return grpc.Completed
  | http.ACKNOWLEDGED => Return grpc.Acknowledged
  | _ => Raise (ValueError "invalid UpdateStatus model: " (Shown_http_UpdateStatus model))
  end.

Definition convert_update_result (model : http.UpdateResult) : Result grpc.UpdateResult :=
  status <- convert_update_stats (http.UpdateResult_status model) ;;
  Return {| grpc.UpdateResult_operation_id := http.UpdateResult_operation_id model;
            grpc.UpdateResult_status := status |}.

Definition convert_distance (model : http.Distance) : Result grpc.Distance :=
  match model with
  | http.DOT => Return grpc.Dot
  | http.COSINE => Return grpc.Cosine
  | http.EUCLID => Return grpc.Euclid
  | _ => Raise (ValueError "invalid Distance model: " (Shown_http_Distance model))
  end.

(** The objects that reach [convert_collection_status]: the status of a
    collection, which [convert_collection_info] passes, and the update
    result that the annotation of its second definition names. *)
Inductive Object :=
| Object_CollectionStatus (status : http.CollectionStatus)
| Object_UpdateResult (result : http.UpdateResult).

(** The class body defines [convert_collection_status] twice. The second
    [def] rebinds the name, so this is the method of the class: it reads
    [model.operation_id], then [model.status]. *)
Definition convert_collection_status (model : Object) : Result grpc.UpdateResult :=
  match model with
  | Object_UpdateResult result =>
    let operation_id := http.UpdateResult_operation_id result in
    status <- convert_update_stats (http.UpdateResult_status result) ;;
    Return {| grpc.UpdateResult_operation_id := operation_id;
              grpc.UpdateResult_status := status |}
  | Object_CollectionStatus _ => Raise (AttributeError "operation_id")
  end.

(** The first definition of the name, which the class no longer holds. *)
Module Shadowed.

Definition convert_collection_status (model : http.CollectionStatus)
  : Result grpc.CollectionStatus :=
  match model with
  | http.RED => Return grpc.Red
  | http.YELLOW => Return grpc.Yellow
  | http.GREEN => Return grpc.Green
  | _ => Raise (ValueError "invalid CollectionStatus model: "
                           (Shown_http_CollectionStatus model))
  end.

End Shadowed.

Definition convert_geo_point (model : http.GeoPoint) : Result grpc.GeoPoint :=
  Return {| grpc.GeoPoint_lon := http.GeoPoint_lon model;
            grpc.GeoPoint_lat := http.GeoPoint_lat model |}.

Definition convert_range (model : http.Range) : Result grpc.Range :=
  Return {| grpc.Range_lt := http.Range_lt model;
            grpc.Range_gt := http.Range_gt model;
            grpc.Range_gte := http.Range_gte model;
            grpc.Range_lte := http.Range_lte model |}.

Definition convert_geo_radius (model : http.GeoRadius) : Result grpc.GeoRadius :=
  center <- convert_geo_point (http.GeoRadius_center model) ;;
  Return {| grpc.GeoRadius_center := center;
            grpc.GeoRadius_radius := http.GeoRadius_radius model |}.

Definition convert_collection_description (model : http.CollectionDescription)
  : Result grpc.CollectionDescription :=
  Return {| grpc.CollectionDescription_name := http.CollectionDescription_name model |}.

(** The two [isinstance] tests cover the union; the [raise ValueError] after
    them is for an object of another class. *)
Definition convert_optimizer_status (model : http.OptimizersStatus)
  : Result grpc.OptimizerStatus :=
  match model with
  | http.OptimizersStatusOneOf =>
    Return {| grpc.OptimizerStatus_ok := true; grpc.OptimizerStatus_error := "" |}
  | http.OptimizersStatusOneOf1 error =>
    Return {| grpc.OptimizerStatus_ok := false; grpc.OptimizerStatus_error := error |}
  end.

Definition convert_payload_index_info (model : http.PayloadIndexInfo)
  : Result grpc.PayloadSchemaInfo :=
  data_type <- convert_payload_schema_type (http.PayloadIndexInfo_data_type model) ;;
  Return {| grpc.PayloadSchemaInfo_data_type := data_type |}.

(** [dict((key, f(val)) for key, val in model.items())], the dictionary as
    the list of its items. *)
Definition convert_payload_schema (model : list (string * http.PayloadIndexInfo))
  : Result (list (string * grpc.PayloadSchemaInfo)) :=
  comprehension
    (fun '(key, val) => info <- convert_payload_index_info val ;; Return (key, info))
    model.

Definition convert_is_empty_condition (model : http.IsEmptyCondition)
  : Result grpc.IsEmptyCondition :=
  Return {| grpc.IsEmptyCondition_key :=
              http.PayloadField_key (http.IsEmptyCondition_is_empty model) |}.

Definition convert_values_count (model : http.ValuesCount) : Result grpc.ValuesCount :=
  Return {| grpc.ValuesCount_lt := http.ValuesCount_lt model;
            grpc.ValuesCount_gt := http.ValuesCount_gt model;
            grpc.ValuesCount_gte := http.ValuesCount_gte model;
            grpc.ValuesCount_lte := http.ValuesCount_lte model |}.

Definition convert_geo_bounding_box (model : http.GeoBoundingBox)
  : Result grpc.GeoBoundingBox :=
  top_left <- convert_geo_point (http.GeoBoundingBox_top_left model) ;;
  bottom_right <- convert_geo_point (http.GeoBoundingBox_bottom_right model) ;;
  Return {| grpc.GeoBoundingBox_top_left := top_left;
            grpc.GeoBoundingBox_bottom_right := bottom_right |}.

Definition convert_hnsw_config_diff (model : http.HnswConfigDiff)
  : Result grpc.HnswConfigDiff :=
  Return {| grpc.HnswConfigDiff_m := http.HnswConfigDiff_m model;
            grpc.HnswConfigDiff_ef_construct := http.HnswConfigDiff_ef_construct model;
            grpc.HnswConfigDiff_full_scan_threshold :=
              http.HnswConfigDiff_full_scan_threshold model |}.

Definition convert_wal_config_diff (model : http.WalConfigDiff)
  : Result grpc.WalConfigDiff :=
  Return {| grpc.WalConfigDiff_wal_capacity_mb := http.WalConfigDiff_wal_capacity_mb model;
            grpc.WalConfigDiff_wal_segments_ahead :=
              http.WalConfigDiff_wal_segments_ahead model |}.

Definition convert_hnsw_config (model : http.HnswConfig) : Result grpc.HnswConfigDiff :=
  Return {| grpc.HnswConfigDiff_m := http.HnswConfig_m model;
            grpc.HnswConfigDiff_ef_construct := http.HnswConfig_ef_construct model;
            grpc.HnswConfigDiff_full_scan_threshold :=
              http.HnswConfig_full_scan_threshold model |}.

(** The call names eight keywords: [deleted_threshold] is not among them, so
    the message keeps it unset. *)
Definition convert_optimizer_config (model : http.OptimizersConfig)
  : Result grpc.OptimizersConfigDiff :=
  Return {| grpc.OptimizersConfigDiff_deleted_threshold := None;
            grpc.OptimizersConfigDiff_vacuum_min_vector_number :=
              http.OptimizersConfig_vacuum_min_vector_number model;
            grpc.OptimizersConfigDiff_default_segment_number :=
              http.OptimizersConfig_default_segment_number model;
            grpc.OptimizersConfigDiff_max_segment_size :=
              http.OptimizersConfig_max_segment_size model;
            grpc.OptimizersConfigDiff_memmap_threshold :=
              http.OptimizersConfig_memmap_threshold model;
            grpc.OptimizersConfigDiff_indexing_threshold :=
              http.OptimizersConfig_indexing_threshold model;
            grpc.OptimizersConfigDiff_payload_indexing_threshold :=
              http.OptimizersConfig_payload_indexing_threshold model;
            grpc.OptimizersConfigDiff_flush_interval_sec :=
              http.OptimizersConfig_flush_interval_sec model;
            grpc.OptimizersConfigDiff_max_optimization_threads :=
              http.OptimizersConfig_max_optimization_threads model |}.

Definition convert_wal_config (model : http.WalConfig) : Result grpc.WalConfigDiff :=
  Return {| grpc.WalConfigDiff_wal_capacity_mb := http.WalConfig_wal_capacity_mb model;
            grpc.WalConfigDiff_wal_segments_ahead := http.WalConfig_wal_segments_ahead model |}.

Definition convert_collection_params (model : http.CollectionParams)
  : Result grpc.CollectionParams :=
  let vector_size := http.CollectionParams_vector_size model in
  let shard_number := http.CollectionParams_shard_number model in
  distance <- convert_distance (http.CollectionParams_distance model) ;;
  Return {| grpc.CollectionParams_vector_size := vector_size;
            grpc.CollectionParams_distance := distance;
            grpc.CollectionParams_shard_number := shard_number |}.

Definition convert_collection_config (model : http.CollectionConfig)
  : Result grpc.CollectionConfig :=
  params <- convert_collection_params (http.CollectionConfig_params model) ;;
  hnsw_config <- convert_hnsw_config (http.CollectionConfig_hnsw_config model) ;;
  optimizer_config <-
    convert_optimizer_config (http.CollectionConfig_optimizer_config model) ;;
  wal_config <- convert_wal_config (http.CollectionConfig_wal_config model) ;;
  Return {| grpc.CollectionConfig_params := params;
            grpc.CollectionConfig_hnsw_config := hnsw_config;
            grpc.CollectionConfig_optimizer_config := optimizer_config;
            grpc.CollectionConfig_wal_config := wal_config |}.


(** [f(x) if x is not None else None], for a field that reads [None] as not
    set. *)
Definition if_given {A B} (f : A -> Result B) (unset : B) (x : option A) : Result B :=
  match x with
  | Some a => f a
  | None => Return unset
  end.

(** The keyword arguments are evaluated in the order they are written; the
    last but one is [cls.convert_collection_status(model.status)], which is
    the second definition of that name. *)
Definition convert_collection_info (model : http.CollectionInfo)
  : Result grpc.CollectionInfo :=
  config <-
    if_given convert_collection_config grpc.CollectionConfig_
             (http.CollectionInfo_config model) ;;
  let disk_data_size := http.CollectionInfo_disk_data_size model in
  optimizer_status <-
    convert_optimizer_status (http.CollectionInfo_optimizer_status model) ;;
  payload_schema <-
    if_given convert_payload_schema [] (http.CollectionInfo_payload_schema model) ;;
  let ram_data_size := http.CollectionInfo_ram_data_size model in
  let segments_count := http.CollectionInfo_segments_count model in
  status <-
    convert_collection_status (Object_CollectionStatus (http.CollectionInfo_status model)) ;;
  Return {| grpc.CollectionInfo_status := grpc.Status_object status;
            grpc.CollectionInfo_optimizer_status := optimizer_status;
            grpc.CollectionInfo_vectors_count := http.CollectionInfo_vectors_count model;
            grpc.CollectionInfo_segments_count := segments_count;
            grpc.CollectionInfo_disk_data_size := disk_data_size;
            grpc.CollectionInfo_ram_data_size := ram_data_size;
            grpc.CollectionInfo_config := config;
            grpc.CollectionInfo_payload_schema := payload_schema |}.

Section Isinstance.

(** [isinstance(v, http.StrictInt)] and [isinstance(v, http.StrictStr)]:
    the two classes come from pydantic, so the tests are taken as given. *)
Variable isinstance_StrictInt : PyValue -> bool.
Variable isinstance_StrictStr : PyValue -> bool.

Definition isinstance_bool (v : PyValue) : bool :=
  match v with PyBool _ => true | _ => false end.

(** The field of a grpc message that receives the Python value. *)
Definition as_bool (v : PyValue) : bool :=
  match v with PyBool b => b | PyInt n => negb (n =? 0) | _ => false end.
Definition as_int (v : PyValue) : Z :=
  match v with PyInt n => n | PyBool b => if b then 1 else 0 | _ => 0 end.
Definition as_str (v : PyValue) : string :=
  match v with PyStr s => s | _ => "" end.

Definition convert_match (model : http.Match) : Result grpc.Match :=
  match model with
  | http.MatchValue value =>
    if isinstance_bool value then Return (grpc.Match_of_boolean (as_bool value))
    else if isinstance_StrictInt value then Return (grpc.Match_of_integer (as_int value))
    else if isinstance_StrictStr value then Return (grpc.Match_of_keyword (as_str value))
    else Raise (ValueError "invalid Match model: " (Shown_http_Match model))
  | http.MatchKeyword keyword => Return (grpc.Match_of_keyword keyword)
  | http.MatchInteger integer => Return (grpc.Match_of_integer integer)
  end.

Definition convert_extended_point_id (model : http.ExtendedPointId)
  : Result grpc.PointId :=
  if isinstance_StrictInt model then Return (grpc.PointId_of_num (as_int model))
  else if isinstance_StrictStr model then Return (grpc.PointId_of_uuid (as_str model))
  else Raise (ValueError "invalid ExtendedPointId model: "
                         (Shown_http_ExtendedPointId model)).

Definition convert_has_id_condition (model : http.HasIdCondition)
  : Result grpc.HasIdCondition :=
  has_id <- comprehension convert_extended_point_id (http.HasIdCondition_has_id model) ;;
  Return {| grpc.HasIdCondition_has_id := has_id |}.

(** A rest model is truthy, so [f(x) if x else None] tests for [None]. *)
Definition convert_field_condition (model : http.FieldCondition)
  : Result grpc.FieldCondition :=
  let key := http.FieldCondition_key model in
  match_ <- if_given convert_match grpc.Match_ (http.FieldCondition_match model) ;;
  range <- if_given convert_range grpc.Range_ (http.FieldCondition_range model) ;;
  geo_bounding_box <-
    if_given convert_geo_bounding_box grpc.GeoBoundingBox_
             (http.FieldCondition_geo_bounding_box model) ;;
  geo_radius <-
    if_given convert_geo_radius grpc.GeoRadius_ (http.FieldCondition_geo_radius model) ;;
  values_count <-
    if_given convert_values_count grpc.ValuesCount_
             (http.FieldCondition_values_count model) ;;
  Return {| grpc.FieldCondition_key := key;
            grpc.FieldCondition_match := match_;
            grpc.FieldCondition_range := range;
            grpc.FieldCondition_geo_bounding_box := geo_bounding_box;
            grpc.FieldCondition_geo_radius := geo_radius;
            grpc.FieldCondition_values_count := values_count |}.


End Isinstance.

(** [int] and [str] themselves: a [bool] is an [int]. *)
Definition isinstance_int (v : PyValue) : bool :=
  match v with PyBool _ | PyInt _ => true | _ => false end.

End RestToGrpc.

(** The members of an enum that the converters name. *)
Definition named_grpc_Distance (d : grpc.Distance) : bool :=
  match d with grpc.Distance_unrecognized _ => false | _ => true end.
Definition named_http_Distance (d : http.Distance) : bool :=
  match d with http.Distance_other _ => false | _ => true end.
Definition named_grpc_UpdateStatus (s : grpc.UpdateStatus) : bool :=
  match s with grpc.UpdateStatus_unrecognized _ => false | _ => true end.
Definition named_http_UpdateStatus (s : http.UpdateStatus) : bool :=
  match s with http.UpdateStatus_other _ => false | _ => true end.

(** ** The converters: what a conversion reads *)

(** A PointId in which both fields are falsy, and the id a truthy one
    stands for. *)
Definition falsy_PointId (model : grpc.PointId) : bool :=
  negb (truthy (grpc.PointId_num model)) && negb (truthy (grpc.PointId_uuid model)).

Definition id_of_PointId (model : grpc.PointId) : http.ExtendedPointId :=
  if truthy (grpc.PointId_num model) then PyInt (grpc.PointId_num model)
  else PyStr (grpc.PointId_uuid model).




(** The two directions, one after the other. *)
Definition then_ {A B C} (f : A -> Result B) (g : B -> Result C) (x : A) : Result C :=
  y <- f x ;; g y.

(** ** The migrator: models and the client interface *)

#[global] Instance truthy_PyValue : Truthy PyValue :=
  fun v =>
    match v with
    | PyBool b => b
    | PyInt n => truthy n
    | PyStr s => truthy s
    | PyFloat x => truthy x
    | PyNone => false
    end.

Inductive MigrationCollisionAction := RAISE | RECREATE | SKIP.

Definition MigrationCollisionAction_eqb (a b : MigrationCollisionAction) : bool :=
  match a, b with
  | RAISE, RAISE | RECREATE, RECREATE | SKIP, SKIP => true
  | _, _ => false
  end.

(** [select_source_collections] returns the list it was given or the set of
    the source's names: both are only iterated and turned into sets. *)
Inductive Names :=
| NameList (names : list string)
| NameSet (names : gset string).

(** [set(collection_names)] *)
Definition set_of (collection_names : Names) : gset string :=
  match collection_names with
  | NameList names => list_to_set names
  | NameSet names => names
  end.

(** Modelled from the spec: [qdrant_client.models] is outside these modules.
    These are the models the migrator reads. The values it only hands from
    one client to the other (vector parameters, index parameters, the hnsw,
    optimizer, wal and quantization configs) have the type [Model]; a stored
    point has the type [Point]. *)
Module models.
Section Models.

Context {Model : Type}.

Record CollectionDescription := { name : string }.
Record CollectionsResponse := { collections : list CollectionDescription }.

Record CollectionParams :=
  { vectors : Model;
    shard_number : Model;
    replication_factor : Model;
    write_consistency_factor : Model;
    on_disk_payload : Model }.

Record CollectionConfig :=
  { params : CollectionParams;
    hnsw_config : Model;
    optimizer_config : Model;
    wal_config : Model;
    quantization_config : Model }.

Record PayloadIndexInfo := { type : Model; index_params : option Model }.

Record CollectionInfo :=
  { config : CollectionConfig;
    payload_schema : list (string * PayloadIndexInfo);
    vectors_count : Z }.

(** The keyword arguments of [QdrantBase.recreate_collection]. *)
Record RecreateCollection :=
  { arg_vectors_config : Model;
    arg_shard_number : Model;
    arg_replication_factor : Model;
    arg_write_consistency_factor : Model;
    arg_on_disk_payload : Model;
    arg_hnsw_config : Model;
    arg_optimizers_config : Model;
    arg_wal_config : Model;
    arg_quantization_config : Model }.

(** [models.HnswConfigDiff] and its two siblings, called with the fields of
    a config as keyword arguments: the constructors of the diff models. *)
Class Constructors :=
  { HnswConfigDiff : Model -> Model;
    OptimizersConfigDiff : Model -> Model;
    WalConfigDiff : Model -> Model }.

End Models.
Arguments Constructors : clear implicits.
Arguments CollectionParams : clear implicits.
Arguments CollectionConfig : clear implicits.
Arguments PayloadIndexInfo : clear implicits.
Arguments CollectionInfo : clear implicits.
Arguments RecreateCollection : clear implicits.
End models.

(** Modelled from the spec: the class [QdrantBase] is outside these modules.
    These are its methods that the migrator calls: a client is any state with
    these six operations. A read returns a value or raises; a write also
    leaves a new state. *)
Module QdrantBase.

Class t (Model Point Client : Type) :=
  { get_collections : Client -> Result models.CollectionsResponse;
    get_collection : Client -> string -> Result (models.CollectionInfo Model);
    scroll : Client -> string -> PyValue -> Z -> bool -> Result (list Point * PyValue);
    recreate_collection :
      Client -> string -> models.RecreateCollection Model -> Result unit * Client;
    create_payload_index : Client -> string -> string -> Model -> Result unit * Client;
    upload_records : Client -> string -> list Point -> Result unit * Client }.

End QdrantBase.

Inductive Side := Source | Dest.

(** A call to a client, with its arguments. *)
Inductive Request (Model Point : Type) :=
| GetCollections
| GetCollection (collection_name : string)
| Scroll (collection_name : string) (offset : PyValue) (limit : Z) (with_vectors : bool)
| RecreateCollection (collection_name : string) (args : models.RecreateCollection Model)
| CreatePayloadIndex (collection_name field_name : string) (field_schema : Model)
| UploadRecords (collection_name : string) (records : list Point).
Arguments GetCollections {Model Point}.
Arguments GetCollection {Model Point} collection_name.
Arguments Scroll {Model Point} collection_name offset limit with_vectors.
Arguments RecreateCollection {Model Point} collection_name args.
Arguments CreatePayloadIndex {Model Point} collection_name field_name field_schema.
Arguments UploadRecords {Model Point} collection_name records.

(** The collection a write changes. *)
Definition written {Model Point} (call : Side * Request Model Point) : option string :=
  match call with
  | (Dest, RecreateCollection collection_name _) => Some collection_name
  | (Dest, CreatePayloadIndex collection_name _ _) => Some collection_name
  | (Dest, UploadRecords collection_name _) => Some collection_name
  | _ => None
  end.

Definition recreated {Model Point} (call : Side * Request Model Point) : option string :=
  match call with
  | (Dest, RecreateCollection collection_name _) => Some collection_name
  | _ => None
  end.

Definition uploaded {Model Point} (call : Side * Request Model Point)
  : option (string * list Point) :=
  match call with
  | (Dest, UploadRecords collection_name records) => Some (collection_name, records)
  | _ => None
  end.

(** The records a run uploaded, page after page. *)
Definition uploaded_records {Model Point} (calls : list (Side * Request Model Point))
  : list Point :=
  concat (snd <$> omap uploaded calls).

(** ** The migrator *)

Section Migrate.

Context {Model Point SourceClient DestClient : Type}.
Context {source_base : QdrantBase.t Model Point SourceClient}.
Context {dest_base : QdrantBase.t Model Point DestClient}.

Context {constructors : models.Constructors Model}.

(** The two clients of a run, each with a state of its own. *)
Record Clients := { source_client : SourceClient; dest_client : DestClient }.

Definition Call : Type := Side * Request Model Point.

(** A run from the state of the two clients: [None] when the fuel of a
    [while] loop ran out, else the value returned or the exception raised, the
    state the clients are left in, and the calls made, in order. An exception
    leaves the state as it was when it was raised. *)
Definition M (A : Type) : Type := Clients -> option (Result A * Clients * list Call).

Definition ret {A} (a : A) : M A := fun c => Some (Return a, c, []).
Definition raise {A} (e : Exception) : M A := fun c => Some (Raise e, c, []).

Definition mbind {A B} (m : M A) (k : A -> M B) : M B :=
  fun c =>
    match m c with
    | None => None
    | Some (Raise e, c1, t1) => Some (Raise e, c1, t1)
    | Some (Return a, c1, t1) =>
      match k a c1 with
      | None => None
      | Some (r, c2, t2) => Some (r, c2, t1 ++ t2)
      end
    end.

Notation "x <~ m ;; k" := (mbind m (fun x => k))
  (at level 100, m at next level, right associativity).
Notation "m ;;; k" := (mbind m (fun _ => k))
  (at level 100, right associativity).

(** [for x in l: body(x)] *)
Definition for_each {A} (body : A -> M unit) : list A -> M unit :=
  fix go l :=
    match l with
    | [] => ret tt
    | x :: l' => body x ;;; go l'
    end.

(** Calls to the source client: reads. *)
Definition source_get_collections : M models.CollectionsResponse :=
  fun c => Some (QdrantBase.get_collections (source_client c), c, [(Source, GetCollections)]).

Definition source_get_collection (collection_name : string)
  : M (models.CollectionInfo Model) :=
  fun c => Some (QdrantBase.get_collection (source_client c) collection_name, c,
                 [(Source, GetCollection collection_name)]).

Definition source_scroll (collection_name : string) (offset : PyValue) (limit : Z)
    (with_vectors : bool) : M (list Point * PyValue) :=
  fun c => Some (QdrantBase.scroll (source_client c) collection_name offset limit with_vectors,
                 c, [(Source, Scroll collection_name offset limit with_vectors)]).

(** Calls to the destination client: reads and writes. *)
Definition dest_get_collections : M models.CollectionsResponse :=
  fun c => Some (QdrantBase.get_collections (dest_client c), c, [(Dest, GetCollections)]).

Definition dest_get_collection (collection_name : string)
  : M (models.CollectionInfo Model) :=
  fun c => Some (QdrantBase.get_collection (dest_client c) collection_name, c,
                 [(Dest, GetCollection collection_name)]).

Definition dest_write (request : Request Model Point)
    (method : DestClient -> Result unit * DestClient) : M unit :=
  fun c =>
    let '(r, d) := method (dest_client c) in
    Some (r, {| source_client := source_client c; dest_client := d |}, [(Dest, request)]).

Definition dest_recreate_collection (collection_name : string)
    (args : models.RecreateCollection Model) : M unit :=
  dest_write (RecreateCollection collection_name args)
             (fun d => QdrantBase.recreate_collection d collection_name args).

Definition dest_create_payload_index (collection_name field_name : string)
    (field_schema : Model) : M unit :=
  dest_write (CreatePayloadIndex collection_name field_name field_schema)
             (fun d => QdrantBase.create_payload_index d collection_name field_name field_schema).

Definition dest_upload_records (collection_name : string) (records : list Point) : M unit :=
  dest_write (UploadRecords collection_name records)
             (fun d => QdrantBase.upload_records d collection_name records).

(** [{collection.name for collection in response.collections}] *)
Definition collection_name_set (response : models.CollectionsResponse) : gset string :=
  list_to_set (models.name <$> models.collections response).

(** [if collection_names:] is false for [None] and for the empty list. *)
Definition select_source_collections (collection_names : option (list string)) : M Names :=
  response <~ source_get_collections ;;
  let source_collection_names := collection_name_set response in
  match collection_names with
  | Some names =>
    if truthy names then
      if forallb (fun collection_name => bool_decide (collection_name ∈ source_collection_names))
                 names
      then ret (NameList names)
      else raise (AssertionError "Source client does not have collections: "
                                 (ShownSet (list_to_set names ∖ source_collection_names)))
    else ret (NameSet source_collection_names)
  | None => ret (NameSet source_collection_names)
  end.

Definition find_collisions (collection_names : Names) : M (list string) :=
  response <~ dest_get_collections ;;
  let dest_collection_names := collection_name_set response in
  let existing_dest_collections := dest_collection_names ∩ set_of collection_names in
  ret (elements existing_dest_collections).

Definition recreate_payload_schema (collection_name : string)
    (payload_schema : list (string * models.PayloadIndexInfo Model)) : M unit :=
  for_each
    (fun '(field_name, field_info) =>
       dest_create_payload_index collection_name field_name
         (match models.index_params field_info with
          | None => models.type field_info
          | Some index_params => index_params
          end))
    payload_schema.

Definition recreate_collection (collection_name : string) : M unit :=
  src_collection_info <~ source_get_collection collection_name ;;
  let src_config := models.config src_collection_info in
  let src_payload_schema := models.payload_schema src_collection_info in
  dest_recreate_collection collection_name
    {| models.arg_vectors_config := models.vectors (models.params src_config);
       models.arg_shard_number := models.shard_number (models.params src_config);
       models.arg_replication_factor := models.replication_factor (models.params src_config);
       models.arg_write_consistency_factor :=
         models.write_consistency_factor (models.params src_config);
       models.arg_on_disk_payload := models.on_disk_payload (models.params src_config);
       models.arg_hnsw_config := models.HnswConfigDiff (models.hnsw_config src_config);
       models.arg_optimizers_config :=
         models.OptimizersConfigDiff (models.optimizer_config src_config);
       models.arg_wal_config := models.WalConfigDiff (models.wal_config src_config);
       models.arg_quantization_config := models.quantization_config src_config |} ;;;
  recreate_payload_schema collection_name src_payload_schema.

(** [while next_offset: ...], with fuel for the iterations. *)
Fixpoint scroll_loop (fuel : nat) (collection_name : string) (batch_size : Z)
    (next_offset : PyValue) : M unit :=
  if truthy next_offset then
    match fuel with
    | O => fun _ => None
    | S fuel' =>
      page <~ source_scroll collection_name next_offset batch_size true ;;
      let '(records, next_offset) := page in
      dest_upload_records collection_name records ;;;
      scroll_loop fuel' collection_name batch_size next_offset
    end
  else ret tt.

(** The first part of [migrate_collection]: the first page, then the loop. *)
Definition copy_pages (fuel : nat) (collection_name : string) (batch_size : Z) : M unit :=
  page <~ source_scroll collection_name PyNone batch_size true ;;
  let '(records, next_offset) := page in
  dest_upload_records collection_name records ;;;
  scroll_loop fuel collection_name batch_size next_offset.

Definition migrate_collection (fuel : nat) (collection_name : string) (batch_size : Z)
  : M unit :=
  copy_pages fuel collection_name batch_size ;;;
  source_info <~ source_get_collection collection_name ;;
  let source_client_vectors_count := models.vectors_count source_info in
  dest_info <~ dest_get_collection collection_name ;;
  let dest_client_vectors_count := models.vectors_count dest_info in
  if source_client_vectors_count =? dest_client_vectors_count then ret tt
  else raise (AssertionError
                "Migration failed, vectors count are not equal: "
                (ShownCounts source_client_vectors_count dest_client_vectors_count)).

(** The first loop runs over a Python set, which has an order of its own:
    here it is the order of [elements], and no statement below depends on
    it. *)
Definition migrate (fuel : nat) (collection_names : option (list string))
    (on_collision_action : MigrationCollisionAction) (batch_size : Z) : M unit :=
  collection_names <~ select_source_collections collection_names ;;
  collisions <~ find_collisions collection_names ;;
  let absent_dest_collections : gset string :=
    set_of collection_names ∖ list_to_set collisions in
  collisions <~
    (if truthy collisions && MigrationCollisionAction_eqb on_collision_action RAISE then
       raise (ValueError "Collections already exist in dest_client: " (ShownList collisions))
     else if truthy collisions && MigrationCollisionAction_eqb on_collision_action SKIP then
       ret []
     else ret collisions) ;;
  for_each
    (fun collection_name =>
       recreate_collection collection_name ;;;
       migrate_collection fuel collection_name batch_size)
    (elements absent_dest_collections) ;;;
  for_each
    (fun collection_name =>
       recreate_collection collection_name ;;;
       migrate_collection fuel collection_name batch_size)
    collisions.

(** The migration of one collection, as the two loops of [migrate] run it. *)
Definition migrate_one (fuel : nat) (batch_size : Z) (collection_name : string) : M unit :=
  mbind (recreate_collection collection_name)
        (fun _ => migrate_collection fuel collection_name batch_size).




(** The collections that the two loops of [migrate] go through, in order,
    when the run gets to them. *)
Definition migrated_names (collection_names : Names) (collisions : list string)
    (on_collision_action : MigrationCollisionAction) : list string :=
  elements (set_of collection_names ∖ list_to_set collisions)
  ++ (if truthy collisions && MigrationCollisionAction_eqb on_collision_action SKIP
      then [] else collisions).

(** The reads of the [while] loop from a cursor: a step is a read at a
    truthy cursor, with the page and the cursor it returns; the cursor after
    the last step is falsy. *)
Fixpoint cursor_chain (source : SourceClient) (collection_name : string) (batch_size : Z)
    (offset : PyValue) (steps : list (list Point * PyValue)) : Prop :=
  match steps with
  | [] => truthy offset = false
  | (records, next_offset) :: steps' =>
    truthy offset = true
    /\ QdrantBase.scroll source collection_name offset batch_size true
       = Return (records, next_offset)
    /\ cursor_chain source collection_name batch_size next_offset steps'
  end.

(** The destination after it took the pages one by one, when no upload
    raises. *)
Fixpoint upload_all (dest : DestClient) (collection_name : string)
    (pages : list (list Point)) : option DestClient :=
  match pages with
  | [] => Some dest
  | records :: pages' =>
    match QdrantBase.upload_records dest collection_name records with
    | (Return _, dest') => upload_all dest' collection_name pages'
    | (Raise _, _) => None
    end
  end.

(** The calls of the loop for these steps: each read, then its upload. *)
Fixpoint page_calls (collection_name : string) (batch_size : Z) (offset : PyValue)
    (steps : list (list Point * PyValue)) : list Call :=
  match steps with
  | [] => []
  | (records, next_offset) :: steps' =>
    (Source, Scroll collection_name offset batch_size true)
    :: (Dest, UploadRecords collection_name records)
    :: page_calls collection_name batch_size next_offset steps'
  end.

(** *** Statements about the calls of a run *)

(** Every call of every run of [m] satisfies [P]. *)
Definition every_call {A} (P : Call -> Prop) (m : M A) : Prop :=
  forall c r c' t, m c = Some (r, c', t) -> Forall P t.

(** A call that writes to no collection but [collection_name]. *)
Definition writes_at_most (collection_name : string) (call : Call) : Prop :=
  forall n, written call = Some n -> n = collection_name.

End Migrate.

(** ** A client in memory *)

(** Modelled from the spec: the client behind [QdrantBase] is not part of
    these modules, only its six operations are (list, get, create or replace,
    create an index, scroll, upload). This client keeps its collections in a
    dictionary. A collection holds its settings, its payload indexes and its
    points, in order; its count is the number of its points. [scroll] pages
    through the points in that order: the cursor it returns is the position of
    the next page, and [None] after the last point. Creating a collection
    replaces what was stored under the name. *)
Module LocalClient.
Section Local.

Context {Model Point : Type}.

Record Collection :=
  { stored_config : models.CollectionConfig Model;
    stored_payload_schema : list (string * models.PayloadIndexInfo Model);
    stored_points : list Point }.

(** The collection with other points. *)
Definition with_points (collection : Collection) (points : list Point) : Collection :=
  {| stored_config := stored_config collection;
     stored_payload_schema := stored_payload_schema collection;
     stored_points := points |}.

Definition not_found {A} (collection_name : string) : Result A :=
  Raise (ValueError "Collection not found: " (ShownList [collection_name])).

Definition get_collections (client : gmap string Collection)
  : Result models.CollectionsResponse :=
  Return {| models.collections :=
              (fun entry => {| models.name := fst entry |}) <$> map_to_list client |}.

Definition get_collection (client : gmap string Collection) (collection_name : string)
  : Result (models.CollectionInfo Model) :=
  match client !! collection_name with
  | Some collection =>
    Return {| models.config := stored_config collection;
              models.payload_schema := stored_payload_schema collection;
              models.vectors_count := Z.of_nat (length (stored_points collection)) |}
  | None => not_found collection_name
  end.

(** The position a cursor stands for. *)
Definition position (offset : PyValue) : option nat :=
  match offset with
  | PyNone => Some O
  | PyInt n => if 0 <=? n then Some (Z.to_nat n) else None
  | _ => None
  end.

Definition page_of (points : list Point) (start : nat) (limit : Z) : list Point * PyValue :=
  let rest := drop start points in
  let page := take (Z.to_nat limit) rest in
  (page,
   if (length page <? length rest)%nat then PyInt (Z.of_nat (start + length page))
   else PyNone).

Definition scroll (client : gmap string Collection) (collection_name : string)
    (offset : PyValue) (limit : Z) (with_vectors : bool) : Result (list Point * PyValue) :=
  match client !! collection_name with
  | Some collection =>
    match position offset with
    | Some start => Return (page_of (stored_points collection) start limit)
    | None => Raise (ValueError "Invalid offset: " (ShownList [collection_name]))
    end
  | None => not_found collection_name
  end.

Definition recreate_collection (client : gmap string Collection) (collection_name : string)
    (args : models.RecreateCollection Model) : Result unit * gmap string Collection :=
  (Return tt,
   <[collection_name :=
       {| stored_config :=
            {| models.params :=
                 {| models.vectors := models.arg_vectors_config args;
                    models.shard_number := models.arg_shard_number args;
                    models.replication_factor := models.arg_replication_factor args;
                    models.write_consistency_factor :=
                      models.arg_write_consistency_factor args;
                    models.on_disk_payload := models.arg_on_disk_payload args |};
               models.hnsw_config := models.arg_hnsw_config args;
               models.optimizer_config := models.arg_optimizers_config args;
               models.wal_config := models.arg_wal_config args;
               models.quantization_config := models.arg_quantization_config args |};
          stored_payload_schema := [];
          stored_points := [] |}]> client).

Definition create_payload_index (client : gmap string Collection)
    (collection_name field_name : string) (field_schema : Model)
  : Result unit * gmap string Collection :=
  match client !! collection_name with
  | Some collection =>
    (Return tt,
     <[collection_name :=
         {| stored_config := stored_config collection;
            stored_payload_schema :=
              stored_payload_schema collection
              ++ [(field_name, {| models.type := field_schema; models.index_params := None |})];
            stored_points := stored_points collection |}]> client)
  | None => (not_found collection_name, client)
  end.

Definition upload_records (client : gmap string Collection) (collection_name : string)
    (records : list Point) : Result unit * gmap string Collection :=
  match client !! collection_name with
  | Some collection =>
    (Return tt,
     <[collection_name := with_points collection (stored_points collection ++ records)]>
     client)
  | None => (not_found collection_name, client)
  end.

#[global] Instance base : QdrantBase.t Model Point (gmap string Collection) :=
  {| QdrantBase.get_collections := get_collections;
     QdrantBase.get_collection := get_collection;
     QdrantBase.scroll := scroll;
     QdrantBase.recreate_collection := recreate_collection;
     QdrantBase.create_payload_index := create_payload_index;
     QdrantBase.upload_records := upload_records |}.

Context {constructors : models.Constructors Model}.



End Local.
Arguments Collection : clear implicits.
End LocalClient.

(** ** A run on three collections *)

(** The source holds the collections a (five points), b (one point) and c
    (no point); the destination holds a collection b of its own. *)
Module Example.

Abbreviation Store := (gmap string (LocalClient.Collection nat nat)).
Abbreviation Clients := (@Clients Store Store).

#[global] Instance constructors : models.Constructors nat :=
  {| models.HnswConfigDiff := fun c => c;
     models.OptimizersConfigDiff := fun c => c;
     models.WalConfigDiff := fun c => c |}.

Definition config : models.CollectionConfig nat :=
  {| models.params :=
       {| models.vectors := 1%nat;
          models.shard_number := 2%nat;
          models.replication_factor := 3%nat;
          models.write_consistency_factor := 4%nat;
          models.on_disk_payload := 5%nat |};
     models.hnsw_config := 6%nat;
     models.optimizer_config := 7%nat;
     models.wal_config := 8%nat;
     models.quantization_config := 9%nat |}.

Definition collection (points : list nat) : LocalClient.Collection nat nat :=
  {| LocalClient.stored_config := config;
     LocalClient.stored_payload_schema :=
       [("city", {| models.type := 10%nat; models.index_params := None |});
        ("age", {| models.type := 11%nat; models.index_params := Some 12%nat |})];
     LocalClient.stored_points := points |}.

Definition source : gmap string (LocalClient.Collection nat nat) :=
  <["a" := collection [1; 2; 3; 4; 5]%nat]>
    (<["b" := collection [6%nat]]> (<["c" := collection []]> ∅)).

Definition dest : gmap string (LocalClient.Collection nat nat) :=
  <["b" := collection [7; 8]%nat]> ∅.

Definition clients : Clients :=
  {| source_client := source; dest_client := dest |}.

Definition response_of (names : list string) : models.CollectionsResponse :=
  {| models.collections := (fun n => {| models.name := n |}) <$> names |}.

End Example.

Module Runs.

(** The destination once collection a has been created in it, empty. *)
Definition dest_with_a : gmap string (LocalClient.Collection nat nat) :=
  <["a" := Example.collection []]> Example.dest.

Definition clients_with_a : Example.Clients :=
  {| source_client := Example.source; dest_client := dest_with_a |}.

Definition copied_a : Example.Clients :=
  {| source_client := Example.source;
     dest_client := <["a" := Example.collection [1; 2; 3; 4; 5]%nat]> Example.dest |}.

Definition copied_b : Example.Clients :=
  {| source_client := Example.source;
     dest_client := <["b" := Example.collection [7; 8; 6]%nat]> ∅ |}.

Definition copy_a_calls : list (Side * Request nat nat) :=
  [(Source, Scroll "a" PyNone 2 true);
   (Dest, UploadRecords "a" [1; 2]%nat);
   (Source, Scroll "a" (PyInt 2) 2 true);
   (Dest, UploadRecords "a" [3; 4]%nat);
   (Source, Scroll "a" (PyInt 4) 2 true);
   (Dest, UploadRecords "a" [5%nat])].

Definition copy_b_calls : list (Side * Request nat nat) :=
  [(Source, Scroll "b" PyNone 2 true); (Dest, UploadRecords "b" [6%nat])].

Definition info (points : list nat) : models.CollectionInfo nat :=
  {| models.config := Example.config;
     models.payload_schema := LocalClient.stored_payload_schema (Example.collection []);
     models.vectors_count := Z.of_nat (length points) |}.



(** Policy Recreate on the three collections. *)
Definition recreate_clients : Example.Clients :=
  Eval vm_compute in
    match migrate 10 None RECREATE 2 Example.clients with
    | Some (_, c, _) => c
    | None => Example.clients
    end.

Definition recreate_calls : list (Side * Request nat nat) :=
  Eval vm_compute in
    match migrate 10 None RECREATE 2 Example.clients with
    | Some (_, _, t) => t
    | None => []
    end.

(** Batch size 0: the migration of collection c, which is empty, and then
    of collection a, which is not. *)
Definition migrated_c : Example.Clients :=
  Eval vm_compute in
    match migrate_one 10 0 "c" Example.clients with
    | Some (_, c, _) => c
    | None => Example.clients
    end.

Definition migrate_c_calls : list (Side * Request nat nat) :=
  Eval vm_compute in
    match migrate_one 10 0 "c" Example.clients with
    | Some (_, _, t) => t
    | None => []
    end.

Definition failed_a : Example.Clients :=
  Eval vm_compute in
    match migrate_one 10 0 "a" migrated_c with
    | Some (_, c, _) => c
    | None => Example.clients
    end.

Definition failed_a_calls : list (Side * Request nat nat) :=
  Eval vm_compute in
    match migrate_one 10 0 "a" migrated_c with
    | Some (_, _, t) => t
    | None => []
    end.

(** The destination with collection a as an upload of no record leaves it. *)
Definition touched_a : gmap string (LocalClient.Collection nat nat) :=
  Eval vm_compute in
    snd (LocalClient.upload_records dest_with_a "a" []).

End Runs.

(** ** The converters: properties *)

(** *** Enums *)

Lemma distance_grpc_rest_grpc d :
  named_grpc_Distance d = true ->
  (h <- GrpcToRest.convert_distance d ;; RestToGrpc.convert_distance h) = Return d.
Proof. destruct d; simpl; intros; congruence. Qed.

Lemma distance_rest_grpc_rest d :
  named_http_Distance d = true ->
  (g <- RestToGrpc.convert_distance d ;; GrpcToRest.convert_distance g) = Return d.
Proof. destruct d; simpl; intros; congruence. Qed.

Lemma update_status_grpc_rest_grpc s :
  named_grpc_UpdateStatus s = true ->
  (h <- GrpcToRest.convert_update_status s ;; RestToGrpc.convert_update_stats h) = Return s.
Proof. destruct s; simpl; intros; congruence. Qed.

Lemma update_status_rest_grpc_rest s :
  named_http_UpdateStatus s = true ->
  (g <- RestToGrpc.convert_update_stats s ;; GrpcToRest.convert_update_status g) = Return s.
Proof. destruct s; simpl; intros; congruence. Qed.

Lemma distance_unrecognized_raises n :
  GrpcToRest.convert_distance (grpc.Distance_unrecognized n) = Raise NotImplementedError.
Proof. reflexivity. Qed.

(** The first definition of [RestToGrpc.convert_collection_status] is a
    one-to-one table on the three named statuses. *)
Lemma shadowed_collection_status_table :
  RestToGrpc.Shadowed.convert_collection_status http.RED = Return grpc.Red
  /\ RestToGrpc.Shadowed.convert_collection_status http.YELLOW = Return grpc.Yellow
  /\ RestToGrpc.Shadowed.convert_collection_status http.GREEN = Return grpc.Green.
Proof. repeat split. Qed.

Lemma payload_schema_type_table :
  RestToGrpc.convert_payload_schema_type http.KEYWORD = Return grpc.Keyword
  /\ RestToGrpc.convert_payload_schema_type http.INTEGER = Return grpc.Integer
  /\ RestToGrpc.convert_payload_schema_type http.FLOAT = Return grpc.Float
  /\ RestToGrpc.convert_payload_schema_type http.GEO = Return grpc.Geo.
Proof. repeat split. Qed.

(** C2. Round trip of the four enums. It holds for Distance and UpdateStatus
    (the four lemmas above). For CollectionStatus the converter cannot take the
    first step: [RestToGrpc.convert_collection_status], as the class holds it,
    is the second definition of that name, and on every collection status it
    raises AttributeError instead of returning the grpc status. *)
Theorem collection_status_conversion_raises (status : http.CollectionStatus) :
  RestToGrpc.convert_collection_status (RestToGrpc.Object_CollectionStatus status)
  = Raise (AttributeError "operation_id").
Proof. reflexivity. Qed.

(** *** Union types read by truthiness *)

Lemma convert_condition_falsy field is_empty has_id filter group :
  truthy field = false -> truthy filter = false ->
  truthy has_id = false -> truthy is_empty = false ->
  GrpcToRest.convert_condition (grpc.mkCondition field is_empty has_id filter group)
  = Return None.
Proof. intros Hf Hl Hh He. simpl. rewrite Hf, Hl, Hh, He. reflexivity. Qed.

Lemma convert_point_id_falsy model :
  grpc.PointId_num model = 0 -> grpc.PointId_uuid model = "" ->
  GrpcToRest.convert_point_id model
  = Raise (ValueError "invalid PointId model: " (Shown_grpc_PointId model)).
Proof. intros Hn Hu. unfold GrpcToRest.convert_point_id. rewrite Hn, Hu. reflexivity. Qed.

Lemma convert_match_falsy model :
  grpc.Match_integer model = 0 -> grpc.Match_boolean model = false ->
  grpc.Match_keyword model = "" ->
  GrpcToRest.convert_match model
  = Raise (ValueError "invalid Match model: " (Shown_grpc_Match model)).
Proof.
  intros Hi Hb Hk. unfold GrpcToRest.convert_match. rewrite Hi, Hb, Hk. reflexivity.
Qed.

(** C3. A PointId and a Match with no variant populated raise a ValueError
    that carries the model. A Condition with no variant populated raises
    nothing: [GrpcToRest.convert_condition] falls off its last [if] and
    returns [None]. *)
Theorem unpopulated_union_conversions :
  GrpcToRest.convert_point_id grpc.PointId_
  = Raise (ValueError "invalid PointId model: " (Shown_grpc_PointId grpc.PointId_))
  /\ GrpcToRest.convert_match grpc.Match_
     = Raise (ValueError "invalid Match model: " (Shown_grpc_Match grpc.Match_))
  /\ GrpcToRest.convert_condition grpc.Condition_ = Return None.
Proof. repeat split. Qed.

(** Inside a filter the [None] reaches the constructor of [http.Filter]. *)
Lemma convert_filter_unpopulated_condition :
  GrpcToRest.convert_filter (grpc.mkFilter [] [grpc.Condition_] [])
  = Raise ValidationError.
Proof. reflexivity. Qed.

(** The variant is found by the truthiness of its value, whichever field of
    the oneof group was set. *)
Lemma convert_point_id_of_num n :
  GrpcToRest.convert_point_id (grpc.PointId_of_num n)
  = if n =? 0
    then Raise (ValueError "invalid PointId model: " (Shown_grpc_PointId (grpc.PointId_of_num n)))
    else Return (PyInt n).
Proof.
  unfold GrpcToRest.convert_point_id, truthy, truthy_int. simpl.
  destruct (n =? 0); reflexivity.
Qed.

Lemma convert_match_of_integer n :
  GrpcToRest.convert_match (grpc.Match_of_integer n)
  = if n =? 0
    then Raise (ValueError "invalid Match model: " (Shown_grpc_Match (grpc.Match_of_integer n)))
    else Return (http.MatchValue (PyInt n)).
Proof.
  unfold GrpcToRest.convert_match, truthy, truthy_int. simpl.
  destruct (n =? 0); reflexivity.
Qed.

Lemma convert_match_of_boolean b :
  GrpcToRest.convert_match (grpc.Match_of_boolean b)
  = if b
    then Return (http.MatchValue (PyBool true))
    else Raise (ValueError "invalid Match model: "
                           (Shown_grpc_Match (grpc.Match_of_boolean false))).
Proof. destruct b; reflexivity. Qed.

Lemma convert_match_of_keyword s :
  GrpcToRest.convert_match (grpc.Match_of_keyword s)
  = if String.eqb s ""
    then Raise (ValueError "invalid Match model: " (Shown_grpc_Match (grpc.Match_of_keyword s)))
    else Return (http.MatchValue (PyStr s)).
Proof.
  unfold GrpcToRest.convert_match, truthy, truthy_str, truthy_int, truthy_bool. simpl.
  destruct (String.eqb s ""); reflexivity.
Qed.

(** C9. A variant that is set to a falsy value reads as not set: a PointId
    with [num = 0], and a Match with [integer = 0], [boolean = False] or
    [keyword = ""], each raise the ValueError of an invalid model, although the
    oneof group of the model says which variant was set. *)
Theorem falsy_variant_is_rejected :
  (GrpcToRest.convert_point_id (grpc.PointId_of_num 0)
   = Raise (ValueError "invalid PointId model: " (Shown_grpc_PointId (grpc.PointId_of_num 0)))
   /\ grpc.PointId_point_id_options (grpc.PointId_of_num 0) = Some "num")
  /\ (GrpcToRest.convert_match (grpc.Match_of_integer 0)
      = Raise (ValueError "invalid Match model: "
                          (Shown_grpc_Match (grpc.Match_of_integer 0)))
      /\ grpc.Match_match_value (grpc.Match_of_integer 0) = Some "integer")
  /\ (GrpcToRest.convert_match (grpc.Match_of_boolean false)
      = Raise (ValueError "invalid Match model: "
                          (Shown_grpc_Match (grpc.Match_of_boolean false)))
      /\ grpc.Match_match_value (grpc.Match_of_boolean false) = Some "boolean")
  /\ (GrpcToRest.convert_match (grpc.Match_of_keyword "")
      = Raise (ValueError "invalid Match model: "
                          (Shown_grpc_Match (grpc.Match_of_keyword "")))
      /\ grpc.Match_match_value (grpc.Match_of_keyword "") = Some "keyword").
Proof.
  split; [split|split; [split|split; [split|split]]].
  - exact (convert_point_id_of_num 0).
  - reflexivity.
  - exact (convert_match_of_integer 0).
  - reflexivity.
  - exact (convert_match_of_boolean false).
  - reflexivity.
  - exact (convert_match_of_keyword "").
  - reflexivity.
Qed.

(** The same variants with a truthy value convert. *)
Lemma truthy_variant_converts :
  GrpcToRest.convert_point_id (grpc.PointId_of_num 7) = Return (PyInt 7)
  /\ GrpcToRest.convert_point_id (grpc.PointId_of_uuid "a") = Return (PyStr "a")
  /\ GrpcToRest.convert_match (grpc.Match_of_integer 7) = Return (http.MatchValue (PyInt 7))
  /\ GrpcToRest.convert_match (grpc.Match_of_boolean true)
     = Return (http.MatchValue (PyBool true))
  /\ GrpcToRest.convert_match (grpc.Match_of_keyword "a")
     = Return (http.MatchValue (PyStr "a")).
Proof. repeat split. Qed.

(** *** CollectionConfig *)

(** C4. [GrpcToRest.convert_collection_config], as the class holds it, is the
    second definition of that name: on every grpc CollectionConfig it raises
    NotImplementedError and converts no field. *)
Theorem convert_collection_config_raises (model : grpc.CollectionConfig) :
  GrpcToRest.convert_collection_config model = Raise NotImplementedError.
Proof. reflexivity. Qed.

(** The first definitions do not return either: the params converter reads
    the attribute [vector_sie], and the config converter calls the params
    converter of the class. *)
Lemma shadowed_collection_params_raises model :
  exists e, GrpcToRest.Shadowed.convert_collection_params model = Raise e.
Proof.
  unfold GrpcToRest.Shadowed.convert_collection_params.
  destruct (GrpcToRest.convert_distance _); simpl; eauto.
Qed.

Lemma shadowed_collection_config_raises model :
  GrpcToRest.Shadowed.convert_collection_config model = Raise NotImplementedError.
Proof. reflexivity. Qed.

(** *** bool before int *)

(** C10. Whatever [http.StrictInt] and [http.StrictStr] accept, a MatchValue
    that holds a [bool] converts to the Match whose oneof group is set to
    [boolean], with that boolean, and with [integer] left at its default. *)
Theorem convert_match_bool_first
    (isinstance_StrictInt isinstance_StrictStr : PyValue -> bool) (b : bool) :
  let r := RestToGrpc.convert_match isinstance_StrictInt isinstance_StrictStr
             (http.MatchValue (PyBool b)) in
  r = Return (grpc.Match_of_boolean b)
  /\ grpc.Match_match_value (grpc.Match_of_boolean b) = Some "boolean"
  /\ grpc.Match_boolean (grpc.Match_of_boolean b) = b
  /\ forall n, r <> Return (grpc.Match_of_integer n).
Proof. simpl. repeat split. intros n H. discriminate H. Qed.

(** With the int test first a [bool] would land in [integer]: it passes
    [isinstance(v, int)]. *)
Lemma bool_is_an_int b : RestToGrpc.isinstance_int (PyBool b) = true.
Proof. reflexivity. Qed.

(** ** The converters: round trips and lists *)

(** *** Comprehensions *)

Lemma comprehension_returns {A B} (f : A -> Result B) l l' :
  comprehension f l = Return l' <-> Forall2 (fun x y => f x = Return y) l l'.
Proof.
  revert l'. induction l as [|x l IH]; intros l'; simpl.
  - split.
    + intros H. injection H as <-. constructor.
    + intros H. inversion H. reflexivity.
  - destruct (f x) as [y|e] eqn:Hx; simpl.
    + destruct (comprehension f l) as [ys|e] eqn:Hl; simpl.
      * split.
        -- intros H. injection H as <-. constructor; [exact Hx|]. apply IH. reflexivity.
        -- intros H. inversion H as [|x0 y0 l0 l0' Hy Hrest]; subst.
           rewrite Hx in Hy. injection Hy as <-.
           apply IH in Hrest. injection Hrest as <-. reflexivity.
      * split; [discriminate|].
        intros H. inversion H as [|x0 y0 l0 l0' Hy Hrest]; subst.
        apply IH in Hrest. discriminate Hrest.
    + split; [discriminate|].
      intros H. inversion H as [|x0 y0 l0 l0' Hy Hrest]; subst.
      rewrite Hx in Hy. discriminate Hy.
Qed.

Lemma validated_returns {A} (l : list (option A)) l' :
  validated l = Return l' <-> l = Some <$> l'.
Proof.
  revert l'. induction l as [|[x|] l IH]; intros l'; simpl.
  - split.
    + intros H. injection H as <-. reflexivity.
    + destruct l'; [reflexivity|discriminate].
  - destruct (validated l) as [xs|e] eqn:Hl; simpl.
    + split.
      * intros H. injection H as <-. simpl. f_equal. apply IH. reflexivity.
      * destruct l' as [|y l']; [discriminate|]. intros H. injection H as -> Hrest.
        apply IH in Hrest. injection Hrest as ->. reflexivity.
    + split; [discriminate|].
      destruct l' as [|y l']; [discriminate|]. intros H. injection H as _ Hrest.
      apply IH in Hrest. discriminate Hrest.
  - split; [discriminate|]. destruct l'; discriminate.
Qed.

(** A comprehension over a conversion that rejects some elements: the first
    rejected element decides. *)
Lemma comprehension_first_rejected {A B} (f : A -> Result B)
    (rejected : A -> bool) (e : A -> Exception) (g : A -> B) l :
  (forall x, f x = if rejected x then Raise (e x) else Return (g x)) ->
  comprehension f l
  = match List.find rejected l with
    | Some x => Raise (e x)
    | None => Return (g <$> l)
    end.
Proof.
  intros Hf. induction l as [|x l IH]; simpl; [reflexivity|].
  rewrite Hf. destruct (rejected x); simpl; [reflexivity|].
  rewrite IH. destruct (List.find rejected l); reflexivity.
Qed.

(** *** Ids *)

Lemma convert_point_id_reads model :
  GrpcToRest.convert_point_id model
  = if falsy_PointId model
    then Raise (ValueError "invalid PointId model: " (Shown_grpc_PointId model))
    else Return (id_of_PointId model).
Proof.
  unfold GrpcToRest.convert_point_id, falsy_PointId, id_of_PointId.
  destruct (truthy (grpc.PointId_num model)); [reflexivity|].
  destruct (truthy (grpc.PointId_uuid model)); reflexivity.
Qed.



(** X2. A has_id condition converts to the ids of its PointIds, in their order,
    unless one of them has no truthy field: then the conversion raises the
    ValueError of the first such PointId. *)
Theorem convert_has_id_condition_reads (model : grpc.HasIdCondition) :
  GrpcToRest.convert_has_id_condition model
  = match List.find falsy_PointId (grpc.HasIdCondition_has_id model) with
    | Some bad => Raise (ValueError "invalid PointId model: " (Shown_grpc_PointId bad))
    | None =>
      Return {| http.HasIdCondition_has_id :=
                  id_of_PointId <$> grpc.HasIdCondition_has_id model |}
    end.
Proof.
  unfold GrpcToRest.convert_has_id_condition.
  rewrite (comprehension_first_rejected
             _ falsy_PointId
             (fun bad => ValueError "invalid PointId model: " (Shown_grpc_PointId bad))
             id_of_PointId _ convert_point_id_reads).
  destruct (List.find _ _); reflexivity.
Qed.


(** *** Matches *)



(** *** Field conditions *)

Lemma convert_match_truthy (model : grpc.Match) :
  truthy model = true -> exists m, GrpcToRest.convert_match model = Return m.
Proof.
  unfold GrpcToRest.convert_match. intros Hmatch.
  destruct (truthy (grpc.Match_integer model)) eqn:Hi; [eexists; reflexivity|].
  destruct (truthy (grpc.Match_boolean model)) eqn:Hb; [eexists; reflexivity|].
  destruct (truthy (grpc.Match_keyword model)) eqn:Hk; [eexists; reflexivity|].
  unfold truthy at 1, grpc.truthy_Match in Hmatch.
  rewrite Hi, Hb, Hk in Hmatch. discriminate Hmatch.
Qed.

(** X6. [GrpcToRest.convert_field_condition] returns for every model: a
    constraint is converted only when it is truthy, and a truthy Match has a
    truthy field, so [convert_match] does not reach its ValueError. The key is
    kept; the match of the result is [None] exactly when the Match of the
    model is falsy, as when it is set to 0, [False] or the empty string. *)
Theorem convert_field_condition_returns (model : grpc.FieldCondition) :
  exists r,
    GrpcToRest.convert_field_condition model = Return r
    /\ http.FieldCondition_key r = grpc.FieldCondition_key model
    /\ (http.FieldCondition_match r = None
        <-> truthy (grpc.FieldCondition_match model) = false)
    /\ (http.FieldCondition_range r = None
        <-> truthy (grpc.FieldCondition_range model) = false).
Proof.
  unfold GrpcToRest.convert_field_condition, GrpcToRest.if_truthy.
  destruct (truthy (grpc.FieldCondition_match model)) eqn:Hmatch.
  - destruct (convert_match_truthy _ Hmatch) as [m ->].
    destruct (truthy (grpc.FieldCondition_geo_bounding_box model));
      destruct (truthy (grpc.FieldCondition_geo_radius model));
      destruct (truthy (grpc.FieldCondition_range model));
      destruct (truthy (grpc.FieldCondition_values_count model));
      eexists; (split; [reflexivity|]); simpl;
      (split; [reflexivity|]); split; split; intros H; congruence.
  - destruct (truthy (grpc.FieldCondition_geo_bounding_box model));
      destruct (truthy (grpc.FieldCondition_geo_radius model));
      destruct (truthy (grpc.FieldCondition_range model));
      destruct (truthy (grpc.FieldCondition_values_count model));
      eexists; (split; [reflexivity|]); simpl;
      (split; [reflexivity|]); split; split; intros H; congruence.
Qed.

(** *** Values that pass through *)

(** X7. A geo point and a geo radius go from grpc to rest and back, and from
    rest to grpc and back, unchanged: the coordinates and the radius are
    copied, the center with the conversion of the point. *)
Theorem geo_round_trips :
  (forall m, then_ GrpcToRest.convert_geo_point RestToGrpc.convert_geo_point m = Return m)
  /\ (forall m, then_ RestToGrpc.convert_geo_point GrpcToRest.convert_geo_point m = Return m)
  /\ (forall m, then_ GrpcToRest.convert_geo_radius RestToGrpc.convert_geo_radius m = Return m)
  /\ (forall m, then_ RestToGrpc.convert_geo_radius GrpcToRest.convert_geo_radius m
                = Return m).
Proof.
  unfold then_. split; [|split; [|split]].
  - intros []. reflexivity.
  - intros []. reflexivity.
  - intros [[] ?]. reflexivity.
  - intros [[] ?]. reflexivity.
Qed.

(** X8. A range and a values count go from grpc to rest and back, and from rest
    to grpc and back, unchanged: each of the four bounds is copied to the
    bound of the same name, set or not. *)
Theorem range_round_trips :
  (forall m, then_ GrpcToRest.convert_range RestToGrpc.convert_range m = Return m)
  /\ (forall m, then_ RestToGrpc.convert_range GrpcToRest.convert_range m = Return m)
  /\ (forall m, then_ GrpcToRest.convert_values_count RestToGrpc.convert_values_count m
                = Return m)
  /\ (forall m, then_ RestToGrpc.convert_values_count GrpcToRest.convert_values_count m
                = Return m).
Proof.
  unfold then_. split; [|split; [|split]]; intros []; reflexivity.
Qed.

(** *** Enums and update results *)

(** X9. A distance goes to the other side and back unchanged when it is one of
    Cosine, Euclid and Dot; any other value is rejected on the way out, with
    NotImplementedError from grpc and ValueError from rest. *)
Theorem distance_round_trips :
  (forall d,
      then_ GrpcToRest.convert_distance RestToGrpc.convert_distance d
      = if named_grpc_Distance d then Return d else Raise NotImplementedError)
  /\ (forall d,
         then_ RestToGrpc.convert_distance GrpcToRest.convert_distance d
         = if named_http_Distance d then Return d
           else Raise (ValueError "invalid Distance model: " (Shown_http_Distance d))).
Proof. split; intros []; reflexivity. Qed.

(** X10. An update result goes to the other side and back with its operation id
    and its status, when the status is Acknowledged or Completed; any other
    status is rejected on the way out. *)
Theorem update_result_round_trips :
  (forall r,
      then_ GrpcToRest.convert_update_result RestToGrpc.convert_update_result r
      = if named_grpc_UpdateStatus (grpc.UpdateResult_status r) then Return r
        else Raise NotImplementedError)
  /\ (forall r,
         then_ RestToGrpc.convert_update_result GrpcToRest.convert_update_result r
         = if named_http_UpdateStatus (http.UpdateResult_status r) then Return r
           else Raise (ValueError "invalid UpdateStatus model: "
                                  (Shown_http_UpdateStatus (http.UpdateResult_status r)))).
Proof. split; intros [operation_id []]; reflexivity. Qed.

(** *** Configs *)


(** X12. A rest collection config converts to grpc exactly when its distance is
    one of Cosine, Euclid and Dot, and then with the vector size, the shard
    number and the hnsw and wal settings of the model. It cannot come back:
    the conversion from grpc raises NotImplementedError. *)
Theorem collection_config_rest_grpc (model : http.CollectionConfig) :
  let distance := http.CollectionParams_distance (http.CollectionConfig_params model) in
  (named_http_Distance distance = false ->
   RestToGrpc.convert_collection_config model
   = Raise (ValueError "invalid Distance model: " (Shown_http_Distance distance)))
  /\ (named_http_Distance distance = true ->
      exists g,
        RestToGrpc.convert_collection_config model = Return g
        /\ RestToGrpc.convert_distance distance
           = Return (grpc.CollectionParams_distance (grpc.CollectionConfig_params g))
        /\ grpc.CollectionParams_vector_size (grpc.CollectionConfig_params g)
           = http.CollectionParams_vector_size (http.CollectionConfig_params model)
        /\ grpc.CollectionParams_shard_number (grpc.CollectionConfig_params g)
           = http.CollectionParams_shard_number (http.CollectionConfig_params model)
        /\ GrpcToRest.convert_hnsw_config (grpc.CollectionConfig_hnsw_config g)
           = Return (http.CollectionConfig_hnsw_config model)
        /\ RestToGrpc.convert_wal_config (http.CollectionConfig_wal_config model)
           = Return (grpc.CollectionConfig_wal_config g))
  /\ then_ RestToGrpc.convert_collection_config GrpcToRest.convert_collection_config model
     <> Return model.
Proof.
  cbv zeta. unfold RestToGrpc.convert_collection_config, RestToGrpc.convert_collection_params,
              then_.
  destruct model as [hnsw optimizer [distance shard_number vector_size] wal]. simpl.
  split; [|split].
  - destruct distance; simpl; intros H; try discriminate H. reflexivity.
  - destruct distance; simpl; intros H; try discriminate H;
      (eexists; split; [reflexivity|]; simpl; repeat split; destruct hnsw; reflexivity).
  - destruct distance; simpl; discriminate.
Qed.

(** *** Collection info *)

(** X13. Neither conversion of a collection info returns, whatever the model.
    [GrpcToRest.convert_collection_info] converts the config first, with the
    method of the class that raises NotImplementedError.
    [RestToGrpc.convert_collection_info] sends the status through the second
    [convert_collection_status]: when the config and the payload schema
    convert, the call ends in AttributeError. *)
Theorem collection_info_conversions_raise :
  (forall model : grpc.CollectionInfo,
      GrpcToRest.convert_collection_info model = Raise NotImplementedError)
  /\ (forall model : http.CollectionInfo,
         exists e, RestToGrpc.convert_collection_info model = Raise e)
  /\ (forall (model : http.CollectionInfo) config payload_schema,
         RestToGrpc.if_given RestToGrpc.convert_collection_config grpc.CollectionConfig_
                             (http.CollectionInfo_config model) = Return config ->
         RestToGrpc.if_given RestToGrpc.convert_payload_schema []
                             (http.CollectionInfo_payload_schema model)
         = Return payload_schema ->
         RestToGrpc.convert_collection_info model = Raise (AttributeError "operation_id")).
Proof.
  split; [reflexivity|]. unfold RestToGrpc.convert_collection_info. split.
  - intros model.
    destruct (RestToGrpc.if_given RestToGrpc.convert_collection_config _ _) as [config|e];
      [|eexists; reflexivity].
    simpl. destruct (RestToGrpc.convert_optimizer_status _) as [status|e];
      [|eexists; reflexivity].
    simpl. destruct (RestToGrpc.if_given RestToGrpc.convert_payload_schema _ _) as [schema|e];
      eexists; reflexivity.
  - intros model config payload_schema -> ->. simpl.
    destruct (http.CollectionInfo_optimizer_status model); reflexivity.
Qed.

(** *** Filters *)

(** X14. [GrpcToRest.convert_filter] returns a filter exactly when each condition
    of the three lists converts to a condition: the result has the three
    lists, never [None], each with the converted conditions of the list of
    the same name, in the same order. *)
Theorem convert_filter_returns should must must_not (r : http.Filter) :
  GrpcToRest.convert_filter (grpc.mkFilter should must must_not) = Return r
  <-> exists must' should' must_not',
      r = http.mkFilter (Some must') (Some should') (Some must_not')
      /\ Forall2 (fun g h => GrpcToRest.convert_condition g = Return (Some h)) must must'
      /\ Forall2 (fun g h => GrpcToRest.convert_condition g = Return (Some h)) should should'
      /\ Forall2 (fun g h => GrpcToRest.convert_condition g = Return (Some h))
                 must_not must_not'.
Proof.
  assert (Hlist : forall l l',
             (exists o, comprehension GrpcToRest.convert_condition l = Return o
                        /\ validated o = Return l')
             <-> Forall2 (fun g h => GrpcToRest.convert_condition g = Return (Some h)) l l').
  { intros l l'. split.
    - intros (o & Ho & Hv). apply comprehension_returns in Ho.
      apply validated_returns in Hv. subst o.
      apply Forall2_fmap_r in Ho. exact Ho.
    - intros H. exists (Some <$> l'). split.
      + apply comprehension_returns, Forall2_fmap_r. exact H.
      + apply validated_returns. reflexivity. }
  unfold GrpcToRest.convert_filter, GrpcToRest.convert_filter_body. simpl.
  split.
  - destruct (comprehension _ must) as [om|e] eqn:Hm; [|discriminate]. simpl.
    destruct (comprehension _ should) as [os|e] eqn:Hs; [|discriminate]. simpl.
    destruct (comprehension _ must_not) as [on|e] eqn:Hn; [|discriminate]. simpl.
    destruct (validated om) as [m|e] eqn:Hvm; [|discriminate]. simpl.
    destruct (validated os) as [s|e] eqn:Hvs; [|discriminate]. simpl.
    destruct (validated on) as [n|e] eqn:Hvn; [|discriminate]. simpl.
    intros H. injection H as <-. exists m, s, n. split; [reflexivity|].
    repeat split; apply Hlist; eauto.
  - intros (m & s & n & -> & Hm & Hs & Hn).
    apply Hlist in Hm as (om & -> & Hvm). apply Hlist in Hs as (os & -> & Hvs).
    apply Hlist in Hn as (on & -> & Hvn). simpl. rewrite Hvm, Hvs, Hvn. reflexivity.
Qed.

(** ** The migrator: properties *)

Section MigrateProperties.

Context {Model Point SourceClient DestClient : Type}.
Context {source_base : QdrantBase.t Model Point SourceClient}.
Context {dest_base : QdrantBase.t Model Point DestClient}.
Context {constructors : models.Constructors Model}.

Abbreviation Clients := (@Clients SourceClient DestClient).
Abbreviation Call := (@Call Model Point).
Abbreviation M := (@M Model Point SourceClient DestClient).
Abbreviation every_call := (@every_call Model Point SourceClient DestClient).
Abbreviation writes_at_most := (@writes_at_most Model Point).
Abbreviation migrate_one :=
  (@migrate_one Model Point SourceClient DestClient source_base dest_base constructors).

(** *** Runs, step by step *)

Lemma mbind_run {A B} (m : M A) (k : A -> M B) c r c' t :
  mbind m k c = Some (r, c', t) ->
  (exists e, m c = Some (Raise e, c', t) /\ r = Raise e)
  \/ (exists a c1 t1 t2,
        m c = Some (Return a, c1, t1) /\ k a c1 = Some (r, c', t2) /\ t = t1 ++ t2).
Proof.
  unfold mbind. destruct (m c) as [[[[a|e] c1] t1]|]; [| |discriminate].
  - destruct (k a c1) as [[[r2 c2] t2]|] eqn:Hk; [|discriminate].
    intros H. injection H as -> -> <-. right. exists a, c1, t1, t2. auto.
  - intros H. injection H as <- <- <-. left. exists e. auto.
Qed.

Lemma mbind_returned {A B} (m : M A) (k : A -> M B) c a c1 t1 :
  m c = Some (Return a, c1, t1) ->
  mbind m k c = match k a c1 with
                | Some (r, c2, t2) => Some (r, c2, t1 ++ t2)
                | None => None
                end.
Proof. unfold mbind. intros ->. reflexivity. Qed.

Lemma mbind_raised {A B} (m : M A) (k : A -> M B) c e c1 t1 :
  m c = Some (Raise e, c1, t1) -> mbind m k c = Some (Raise e, c1, t1).
Proof. unfold mbind. intros ->. reflexivity. Qed.

Lemma mbind_assoc {A B C} (m : M A) (k : A -> M B) (h : B -> M C) c :
  mbind (mbind m k) h c = mbind m (fun a => mbind (k a) h) c.
Proof.
  unfold mbind. destruct (m c) as [[[[a|e] c1] t1]|]; try reflexivity.
  destruct (k a c1) as [[[[b|e] c2] t2]|]; try reflexivity.
  destruct (h b c2) as [[[r c3] t3]|]; try reflexivity.
  rewrite app_assoc. reflexivity.
Qed.


Lemma every_call_ret {A} P (a : A) : every_call P (ret a).
Proof. intros c r c' t H. injection H as <- <- <-. constructor. Qed.

Lemma every_call_raise {A} P e : every_call P (raise (A:=A) e).
Proof. intros c r c' t H. injection H as <- <- <-. constructor. Qed.

Lemma every_call_bind {A B} P (m : M A) (k : A -> M B) :
  every_call P m -> (forall a, every_call P (k a)) -> every_call P (mbind m k).
Proof.
  intros Hm Hk c r c' t H. apply mbind_run in H as [(e & H & _)|(a & c1 & t1 & t2 & H1 & H2 & ->)].
  - eapply Hm, H.
  - apply Forall_app. split; [eapply Hm, H1 | eapply Hk, H2].
Qed.

Lemma every_call_for_each {A} P (body : A -> M unit) l :
  (forall x, every_call P (body x)) -> every_call P (for_each body l).
Proof.
  intros Hb. induction l as [|x l IH]; simpl.
  - apply every_call_ret.
  - apply every_call_bind; [apply Hb | intros _; apply IH].
Qed.

Lemma every_call_one {A} P (call : Call) (f : Clients -> Result A * Clients) :
  P call -> every_call P (fun c => Some (f c, [call])).
Proof.
  intros HP c r c' t H. injection H as _ <-. repeat constructor. exact HP.
Qed.

Lemma every_call_dest_write P request method :
  P (Dest, request) -> every_call P (dest_write request method).
Proof.
  intros HP c r c' t. unfold dest_write. destruct (method _) as [r0 d].
  intros H. injection H as _ _ <-. repeat constructor. exact HP.
Qed.

Lemma every_call_source_get_collections P :
  P (Source, GetCollections) -> every_call P source_get_collections.
Proof. intros HP c r c' t H. injection H as _ _ <-. repeat constructor. exact HP. Qed.

Lemma every_call_dest_get_collections P :
  P (Dest, GetCollections) -> every_call P dest_get_collections.
Proof. intros HP c r c' t H. injection H as _ _ <-. repeat constructor. exact HP. Qed.

Lemma every_call_source_get_collection P collection_name :
  P (Source, GetCollection collection_name) ->
  every_call P (source_get_collection collection_name).
Proof. intros HP c r c' t H. injection H as _ _ <-. repeat constructor. exact HP. Qed.

Lemma every_call_dest_get_collection P collection_name :
  P (Dest, GetCollection collection_name) ->
  every_call P (dest_get_collection collection_name).
Proof. intros HP c r c' t H. injection H as _ _ <-. repeat constructor. exact HP. Qed.

Lemma every_call_source_scroll P collection_name offset limit with_vectors :
  P (Source, Scroll collection_name offset limit with_vectors) ->
  every_call P (source_scroll collection_name offset limit with_vectors).
Proof. intros HP c r c' t H. injection H as _ _ <-. repeat constructor. exact HP. Qed.

Lemma every_call_impl {A} (P Q : Call -> Prop) (m : M A) :
  (forall call, P call -> Q call) -> every_call P m -> every_call Q m.
Proof. intros HPQ Hm c r c' t H. eapply Forall_impl; [eapply Hm, H | exact HPQ]. Qed.

Lemma every_call_for_each_in {A} P (body : A -> M unit) l :
  (forall x, x ∈ l -> every_call P (body x)) -> every_call P (for_each body l).
Proof.
  induction l as [|x l IH]; intros Hb; simpl.
  - apply every_call_ret.
  - apply every_call_bind.
    + apply Hb. left.
    + intros _. apply IH. intros y Hy. apply Hb. right. exact Hy.
Qed.

(** The calls of the four steps of a collection's migration. *)
Section CallsOfACollection.

Variable P : Call -> Prop.
Variable collection_name : string.
Variable batch_size : Z.

Lemma recreate_payload_schema_calls payload_schema :
  (forall field_name field_schema,
      P (Dest, CreatePayloadIndex collection_name field_name field_schema)) ->
  every_call P (recreate_payload_schema collection_name payload_schema).
Proof.
  intros HP. apply every_call_for_each. intros [field_name field_info].
  apply every_call_dest_write, HP.
Qed.

Lemma recreate_collection_calls :
  P (Source, GetCollection collection_name) ->
  (forall args, P (Dest, RecreateCollection collection_name args)) ->
  (forall field_name field_schema,
      P (Dest, CreatePayloadIndex collection_name field_name field_schema)) ->
  every_call P (recreate_collection collection_name).
Proof.
  intros Hget Hrecreate Hindex. unfold recreate_collection.
  apply every_call_bind; [apply every_call_source_get_collection, Hget|].
  intros info. apply every_call_bind; [apply every_call_dest_write, Hrecreate|].
  intros _. apply recreate_payload_schema_calls, Hindex.
Qed.

Hypothesis P_scroll : forall offset, P (Source, Scroll collection_name offset batch_size true).
Hypothesis P_upload : forall records, P (Dest, UploadRecords collection_name records).

Lemma scroll_loop_calls fuel next_offset :
  every_call P (scroll_loop fuel collection_name batch_size next_offset).
Proof.
  revert next_offset. induction fuel as [|fuel IH]; intros next_offset; simpl;
    destruct (truthy next_offset); try apply every_call_ret.
  - intros c r c' t H. discriminate H.
  - apply every_call_bind; [apply every_call_source_scroll, P_scroll|].
    intros [records next]. apply every_call_bind; [|intros _; apply IH].
    apply every_call_dest_write, P_upload.
Qed.

Lemma copy_pages_calls fuel :
  every_call P (copy_pages fuel collection_name batch_size).
Proof.
  unfold copy_pages. apply every_call_bind; [apply every_call_source_scroll, P_scroll|].
  intros [records next]. apply every_call_bind; [|intros _; apply scroll_loop_calls].
  apply every_call_dest_write, P_upload.
Qed.

Lemma migrate_collection_calls fuel :
  P (Source, GetCollection collection_name) ->
  P (Dest, GetCollection collection_name) ->
  every_call P (migrate_collection fuel collection_name batch_size).
Proof.
  intros Hsource Hdest.
  unfold migrate_collection. apply every_call_bind; [apply copy_pages_calls|].
  intros _. apply every_call_bind; [apply every_call_source_get_collection, Hsource|].
  intros source_info.
  apply every_call_bind; [apply every_call_dest_get_collection, Hdest|].
  intros dest_info. destruct (_ =? _); [apply every_call_ret | apply every_call_raise].
Qed.

End CallsOfACollection.


Lemma recreate_collection_writes collection_name :
  every_call (writes_at_most collection_name) (recreate_collection collection_name).
Proof.
  apply recreate_collection_calls; intros; intros n H;
    first [discriminate H | injection H as <-; reflexivity].
Qed.

Lemma migrate_collection_writes fuel collection_name batch_size :
  every_call (writes_at_most collection_name)
             (migrate_collection fuel collection_name batch_size).
Proof.
  apply migrate_collection_calls; intros; intros n H;
    first [discriminate H | injection H as <-; reflexivity].
Qed.

Lemma migrate_collection_recreates_nothing fuel collection_name batch_size :
  every_call (fun call => recreated call = None)
             (migrate_collection fuel collection_name batch_size).
Proof. apply migrate_collection_calls; intros; reflexivity. Qed.

Lemma omap_none {A B} (f : A -> option B) (l : list A) :
  Forall (fun x => f x = None) l -> omap f l = [].
Proof. induction 1 as [|x l Hx _ IH]; simpl; [reflexivity|]. rewrite Hx. exact IH. Qed.

(** *** Selecting the collections *)

Lemma forallb_names (S : gset string) (R : list string) :
  forallb (fun n => bool_decide (n ∈ S)) R = true <-> (forall n, n ∈ R -> n ∈ S).
Proof.
  rewrite forallb_forall. split.
  - intros H n Hn. apply list_elem_of_In in Hn. apply H in Hn.
    apply bool_decide_eq_true in Hn. exact Hn.
  - intros H n Hn. apply bool_decide_eq_true, H, list_elem_of_In, Hn.
Qed.

(** C7. With S the names of the source's collections: a non-empty request R
    is returned as it is when each of its names is in S; when one is not, the
    assertion fails and its message shows the set R \ S; with no request, the
    result is S. Only the source is called, once. *)
Theorem select_source_collections_spec (c : Clients) response (R : list string) :
  QdrantBase.get_collections (source_client c) = Return response ->
  let S := collection_name_set response in
  let calls : list Call := [(Source, GetCollections)] in
  (R <> [] -> (forall n, n ∈ R -> n ∈ S) ->
   select_source_collections (Some R) c = Some (Return (NameList R), c, calls))
  /\ (R <> [] -> (exists n, n ∈ R /\ n ∉ S) ->
      select_source_collections (Some R) c
      = Some (Raise (AssertionError "Source client does not have collections: "
                                    (ShownSet (list_to_set R ∖ S))), c, calls)
      /\ forall n, n ∈ (list_to_set R ∖ S : gset string) <-> n ∈ R /\ n ∉ S)
  /\ select_source_collections None c = Some (Return (NameSet S), c, calls).
Proof.
  intros Hget S calls.
  assert (Hsrc : source_get_collections c = Some (Return response, c, calls)).
  { unfold source_get_collections. rewrite Hget. reflexivity. }
  unfold select_source_collections. split; [|split; [intros Hne Hex; split; [|split]|]].
  - intros Hne Hall. rewrite (mbind_returned _ _ _ _ _ _ Hsrc).
    destruct R as [|x R]; [contradiction|]. cbv [truthy truthy_list].
    apply (proj2 (forallb_names _ _)) in Hall. fold S. rewrite Hall. reflexivity.
  - destruct Hex as (n & Hn & Hout). rewrite (mbind_returned _ _ _ _ _ _ Hsrc).
    destruct R as [|x R]; [contradiction|]. cbv [truthy truthy_list].
    fold S. destruct (forallb _ _) eqn:Hall; [|reflexivity].
    exfalso. apply Hout. apply (proj1 (forallb_names _ _) Hall n Hn).
  - intros Hn. split.
    + apply elem_of_difference in Hn as [Hn _].
      apply elem_of_list_to_set in Hn. exact Hn.
    + apply elem_of_difference in Hn as [_ Hn]. exact Hn.
  - intros [Hn Hout]. apply elem_of_difference. split; [|exact Hout].
    apply elem_of_list_to_set. exact Hn.
  - rewrite (mbind_returned _ _ _ _ _ _ Hsrc). reflexivity.
Qed.

(** An empty request is falsy, like no request. *)
Lemma select_source_collections_empty (c : Clients) :
  select_source_collections (Some []) c = select_source_collections None c.
Proof.
  unfold select_source_collections, mbind.
  destruct (source_get_collections c) as [[[[a|e] c1] t1]|]; reflexivity.
Qed.

(** Selecting calls the source once and writes nothing. *)
Lemma select_source_collections_run (c : Clients) request r c' t :
  select_source_collections request c = Some (r, c', t) ->
  c' = c /\ t = [(Source, GetCollections)].
Proof.
  unfold select_source_collections, mbind, source_get_collections.
  destruct (QdrantBase.get_collections _) as [response|e].
  - destruct request as [names|]; [destruct (truthy names); [destruct (forallb _ _)|]|];
      intros H; injection H as _ <- <-; auto.
  - intros H; injection H as _ <- <-; auto.
Qed.

Lemma find_collisions_run (c : Clients) collection_names r c' t :
  find_collisions collection_names c = Some (r, c', t) ->
  c' = c /\ t = [(Dest, GetCollections)].
Proof.
  unfold find_collisions, mbind, dest_get_collections.
  destruct (QdrantBase.get_collections _) as [response|e];
    intros H; injection H as _ <- <-; auto.
Qed.

(** The collisions are the requested names that the destination has. *)
Lemma find_collisions_spec (c : Clients) collection_names response :
  QdrantBase.get_collections (dest_client c) = Return response ->
  find_collisions collection_names c
  = Some (Return (elements (collection_name_set response ∩ set_of collection_names)),
          c, [(Dest, GetCollections)]).
Proof.
  intros H. unfold find_collisions, mbind, dest_get_collections. rewrite H. reflexivity.
Qed.

(** *** Collisions *)

(** C1. Policy Raise. When the selection returns and the collisions it finds
    at the destination are not empty, the run raises a ValueError that shows
    the collisions, which are all the selected names the destination has. The
    run made two calls, both reads, and left both clients as they were. *)
Theorem migrate_raise_writes_nothing fuel request batch_size (c : Clients)
    names c1 t1 collisions c2 t2 :
  select_source_collections request c = Some (Return names, c1, t1) ->
  find_collisions names c1 = Some (Return collisions, c2, t2) ->
  truthy collisions = true ->
  let calls : list Call := [(Source, GetCollections); (Dest, GetCollections)] in
  migrate fuel request RAISE batch_size c
  = Some (Raise (ValueError "Collections already exist in dest_client: "
                            (ShownList collisions)), c, calls)
  /\ omap written calls = []
  /\ exists response,
      QdrantBase.get_collections (dest_client c) = Return response
      /\ forall n, n ∈ collisions <-> n ∈ set_of names /\ n ∈ collection_name_set response.
Proof.
  intros Hselect Hfind Htruthy calls.
  destruct (select_source_collections_run _ _ _ _ _ Hselect) as [-> ->].
  destruct (find_collisions_run _ _ _ _ _ Hfind) as [-> ->].
  split; [|split; [reflexivity|]].
  - unfold migrate. rewrite (mbind_returned _ _ _ _ _ _ Hselect).
    rewrite (mbind_returned _ _ _ _ _ _ Hfind). rewrite Htruthy. reflexivity.
  - destruct (QdrantBase.get_collections (dest_client c)) as [response|e] eqn:Hget.
    + exists response. split; [reflexivity|]. intros n.
      rewrite (find_collisions_spec _ _ _ Hget) in Hfind. injection Hfind as <-.
      rewrite elem_of_elements, elem_of_intersection. tauto.
    + unfold find_collisions, mbind, dest_get_collections in Hfind.
      rewrite Hget in Hfind. discriminate Hfind.
Qed.

(** A request for a collection that the source does not have ends the run
    in the same way, whatever the policy: one read, no write. *)
Lemma migrate_selection_raises fuel request action batch_size (c : Clients) e c1 t1 :
  select_source_collections request c = Some (Raise e, c1, t1) ->
  migrate fuel request action batch_size c = Some (Raise e, c, [(Source, GetCollections)]).
Proof.
  intros Hselect. destruct (select_source_collections_run _ _ _ _ _ Hselect) as [-> ->].
  unfold migrate. rewrite (mbind_raised _ _ _ _ _ _ Hselect). reflexivity.
Qed.

(** What a loop over [l] that returned has done: the body returned for each
    element, one run after the other. *)
Lemma for_each_returned {A} (body : A -> M unit) l (c c' : Clients) t :
  for_each body l c = Some (Return tt, c', t) ->
  exists runs,
    t = concat runs
    /\ Forall2 (fun x run => exists ca cb, body x ca = Some (Return tt, cb, run)) l runs.
Proof.
  revert c t. induction l as [|x l IH]; intros c t; simpl.
  - intros H. injection H as <- <-. exists []. split; [reflexivity | constructor].
  - intros H. apply mbind_run in H as [(e & _ & He)|(a & c1 & t1 & t2 & H1 & H2 & ->)];
      [discriminate He|].
    destruct a. apply IH in H2 as (runs & -> & Hruns).
    exists (t1 :: runs). split; [reflexivity|]. constructor; [|exact Hruns].
    exists c, c1. exact H1.
Qed.

Lemma recreated_recreate_collection collection_name (c c' : Clients) r t :
  recreate_collection collection_name c = Some (r, c', t) ->
  r = Return tt -> omap recreated t = [collection_name].
Proof.
  unfold recreate_collection. intros H ->.
  apply mbind_run in H as [(e & _ & He)|(info & c1 & t1 & t2 & H1 & H2 & ->)];
    [discriminate He|].
  injection H1 as _ _ <-.
  apply mbind_run in H2 as [(e & _ & He)|([] & c2 & t2' & t3 & H2 & H3 & ->)];
    [discriminate He|].
  unfold dest_recreate_collection, dest_write in H2.
  destruct (QdrantBase.recreate_collection _ _ _) as [r0 d]. injection H2 as _ _ <-.
  simpl. f_equal. apply omap_none.
  eapply (recreate_payload_schema_calls (fun call => recreated call = None)), H3.
  reflexivity.
Qed.


Lemma migrate_one_returned fuel batch_size collection_name (c c' : Clients) t :
  migrate_one fuel batch_size collection_name c = Some (Return tt, c', t) ->
  omap recreated t = [collection_name]
  /\ exists t1 (c1 : Clients) t2,
      t = t1 ++ t2
      /\ migrate_collection fuel collection_name batch_size c1 = Some (Return tt, c', t2).
Proof.
  intros H. apply mbind_run in H as [(e & _ & He)|([] & c1 & t1 & t2 & H1 & H2 & ->)];
    [discriminate He|].
  split.
  - rewrite omap_app, (recreated_recreate_collection _ _ _ _ _ H1 eq_refl).
    rewrite (omap_none recreated t2); [reflexivity|].
    eapply migrate_collection_recreates_nothing, H2.
  - exists t1, c1, t2. auto.
Qed.

Lemma migrate_one_writes fuel batch_size collection_name :
  every_call (writes_at_most collection_name) (migrate_one fuel batch_size collection_name).
Proof.
  apply every_call_bind; [apply recreate_collection_writes|].
  intros _. apply migrate_collection_writes.
Qed.


Lemma for_each_recreated fuel batch_size l (c c' : Clients) t :
  for_each (migrate_one fuel batch_size) l c = Some (Return tt, c', t) ->
  omap recreated t = l.
Proof.
  intros H. apply for_each_returned in H as (runs & -> & Hruns).
  induction Hruns as [|x run l runs (ca & cb & Hrun) _ IH]; [reflexivity|].
  simpl. rewrite omap_app, IH.
  apply migrate_one_returned in Hrun as [-> _]. reflexivity.
Qed.

Lemma for_each_migrated fuel batch_size l (c c' : Clients) t n :
  for_each (migrate_one fuel batch_size) l c = Some (Return tt, c', t) ->
  n ∈ l ->
  exists before run after (ca cb : Clients),
    t = before ++ run ++ after
    /\ migrate_collection fuel n batch_size ca = Some (Return tt, cb, run).
Proof.
  intros H Hn. apply for_each_returned in H as (runs & -> & Hruns).
  induction Hruns as [|x run l runs (ca & cb & Hrun) _ IH]; [inversion Hn|].
  apply elem_of_cons in Hn as [->|Hn].
  - apply migrate_one_returned in Hrun as (_ & t1 & c1 & t2 & -> & Hrun).
    exists t1, t2, (concat runs), c1, cb. split; [|exact Hrun].
    simpl. rewrite <- app_assoc. reflexivity.
  - destruct (IH Hn) as (before & run' & after & ca' & cb' & Heq & Hrun').
    exists (run ++ before), run', after, ca', cb'. split; [|exact Hrun'].
    simpl. rewrite Heq, <- app_assoc. reflexivity.
Qed.

Lemma mbind_ret_tt (m : M unit) (c : Clients) : mbind m (fun _ => ret tt) c = m c.
Proof.
  unfold mbind, ret. destruct (m c) as [[[[[]|e] c1] t1]|]; try reflexivity.
  rewrite app_nil_r. reflexivity.
Qed.

(** Policy Skip: after the two reads, the run is the loop over the selected
    names that did not collide. *)
Lemma migrate_skip_run fuel request batch_size (c : Clients)
    names c1 t1 collisions c2 t2 :
  select_source_collections request c = Some (Return names, c1, t1) ->
  find_collisions names c1 = Some (Return collisions, c2, t2) ->
  migrate fuel request SKIP batch_size c
  = match for_each (migrate_one fuel batch_size)
                   (elements (set_of names ∖ list_to_set collisions)) c with
    | Some (r, c', t) => Some (r, c', [(Source, GetCollections); (Dest, GetCollections)] ++ t)
    | None => None
    end.
Proof.
  intros Hselect Hfind.
  destruct (select_source_collections_run _ _ _ _ _ Hselect) as [-> ->].
  destruct (find_collisions_run _ _ _ _ _ Hfind) as [-> ->].
  unfold migrate. rewrite (mbind_returned _ _ _ _ _ _ Hselect).
  rewrite (mbind_returned _ _ _ _ _ _ Hfind).
  assert (Hskipped :
            (if truthy collisions && MigrationCollisionAction_eqb SKIP RAISE
             then raise (ValueError "Collections already exist in dest_client: "
                                    (ShownList collisions))
             else if truthy collisions && MigrationCollisionAction_eqb SKIP SKIP
                  then ret []
                  else ret collisions)
            = (ret [] : M (list string))).
  { destruct collisions; reflexivity. }
  rewrite Hskipped.
  unfold mbind at 1. unfold ret at 1. cbv iota beta.
  change (for_each _ []) with (ret (Model:=Model) (Point:=Point)
                                   (SourceClient:=SourceClient) (DestClient:=DestClient) tt).
  rewrite mbind_ret_tt.
  change (fun collection_name : string =>
            mbind (recreate_collection collection_name)
                  (fun _ : unit => migrate_collection fuel collection_name batch_size))
    with (migrate_one fuel batch_size).
  destruct (for_each _ _ c) as [[[r c'] t]|]; reflexivity.
Qed.


(** *** The count check *)

(** After the copy, the two reads and the comparison. *)
Lemma migrate_collection_after_copy fuel collection_name batch_size
    (c c1 : Clients) t1 source_info dest_info :
  copy_pages fuel collection_name batch_size c = Some (Return tt, c1, t1) ->
  QdrantBase.get_collection (source_client c1) collection_name = Return source_info ->
  QdrantBase.get_collection (dest_client c1) collection_name = Return dest_info ->
  migrate_collection fuel collection_name batch_size c
  = Some (if models.vectors_count source_info =? models.vectors_count dest_info
          then Return tt
          else Raise (AssertionError
                        "Migration failed, vectors count are not equal: "
                        (ShownCounts (models.vectors_count source_info)
                                     (models.vectors_count dest_info))),
          c1, t1 ++ [(Source, GetCollection collection_name);
                     (Dest, GetCollection collection_name)]).
Proof.
  intros Hcopy Hsource Hdest.
  unfold migrate_collection. rewrite (mbind_returned _ _ _ _ _ _ Hcopy).
  unfold mbind, source_get_collection, dest_get_collection.
  rewrite Hsource, Hdest.
  destruct (models.vectors_count source_info =? models.vectors_count dest_info);
    reflexivity.
Qed.

(** C6. Once the pages are copied, [migrate_collection] reads the two
    counts. It returns when they are equal and only then; when they differ it
    raises an AssertionError that shows both. Either way the clients are left
    as the copy left them, and the calls of the copy are part of the run. *)
Theorem migrate_collection_checks_counts fuel collection_name batch_size
    (c c1 : Clients) t1 source_info dest_info :
  copy_pages fuel collection_name batch_size c = Some (Return tt, c1, t1) ->
  QdrantBase.get_collection (source_client c1) collection_name = Return source_info ->
  QdrantBase.get_collection (dest_client c1) collection_name = Return dest_info ->
  let source_count := models.vectors_count source_info in
  let dest_count := models.vectors_count dest_info in
  let r : Result unit :=
    if source_count =? dest_count then Return tt
    else Raise (AssertionError "Migration failed, vectors count are not equal: "
                               (ShownCounts source_count dest_count)) in
  migrate_collection fuel collection_name batch_size c
  = Some (r, c1, t1 ++ [(Source, GetCollection collection_name);
                        (Dest, GetCollection collection_name)])
  /\ (r = Return tt <-> source_count = dest_count)
  /\ (source_count <> dest_count ->
      r = Raise (AssertionError "Migration failed, vectors count are not equal: "
                                (ShownCounts source_count dest_count))).
Proof.
  intros Hcopy Hsource Hdest source_count dest_count r. split; [|split].
  - exact (migrate_collection_after_copy _ _ _ _ _ _ _ _ Hcopy Hsource Hdest).
  - subst r. destruct (Z.eqb_spec source_count dest_count) as [Heq|Hne].
    + split; auto.
    + split; [discriminate|contradiction].
  - intros Hne. subst r. destruct (Z.eqb_spec source_count dest_count); [contradiction|].
    reflexivity.
Qed.

(** When the copy does not return there is no check: the exception of the
    copy is the outcome. *)
Lemma migrate_collection_copy_raises fuel collection_name batch_size (c c1 : Clients) t1 e :
  copy_pages fuel collection_name batch_size c = Some (Raise e, c1, t1) ->
  migrate_collection fuel collection_name batch_size c = Some (Raise e, c1, t1).
Proof. intros H. unfold migrate_collection. apply mbind_raised, H. Qed.

(** The two cases of the [while]. *)
Lemma scroll_loop_step fuel collection_name batch_size next_offset :
  truthy next_offset = true ->
  scroll_loop (S fuel) collection_name batch_size next_offset
  = mbind (source_scroll collection_name next_offset batch_size true)
          (fun page : list Point * PyValue =>
             let '(records, next_offset) := page in
             mbind (dest_upload_records collection_name records)
                   (fun _ => scroll_loop fuel collection_name batch_size next_offset)).
Proof. intros H. simpl. rewrite H. reflexivity. Qed.

Lemma scroll_loop_end fuel collection_name batch_size next_offset :
  truthy next_offset = false ->
  scroll_loop fuel collection_name batch_size next_offset = ret tt.
Proof. intros H. destruct fuel; simpl; rewrite H; reflexivity. Qed.

(** *** The run, policy by policy *)

Lemma for_each_app {A} (body : A -> M unit) l1 l2 (c : Clients) :
  for_each body (l1 ++ l2) c = mbind (for_each body l1) (fun _ => for_each body l2) c.
Proof.
  revert c. induction l1 as [|x l1 IH]; intros c.
  - simpl. unfold mbind, ret. destruct (for_each body l2 c) as [[[r c'] t]|]; reflexivity.
  - change (for_each body ((x :: l1) ++ l2) c)
      with (mbind (body x) (fun _ => for_each body (l1 ++ l2)) c).
    change (for_each body (x :: l1)) with (mbind (body x) (fun _ => for_each body l1)).
    rewrite mbind_assoc.
    change (mbind (body x) (fun _ => for_each body (l1 ++ l2)) c)
      with (match body x c with
            | None => None
            | Some (Raise e, c1, t1) => Some (Raise e, c1, t1)
            | Some (Return a, c1, t1) =>
              match for_each body (l1 ++ l2) c1 with
              | None => None
              | Some (r, c2, t2) => Some (r, c2, t1 ++ t2)
              end
            end).
    change (mbind (body x) (fun _ => mbind (for_each body l1) (fun _ => for_each body l2)) c)
      with (match body x c with
            | None => None
            | Some (Raise e, c1, t1) => Some (Raise e, c1, t1)
            | Some (Return a, c1, t1) =>
              match mbind (for_each body l1) (fun _ => for_each body l2) c1 with
              | None => None
              | Some (r, c2, t2) => Some (r, c2, t1 ++ t2)
              end
            end).
    destruct (body x c) as [[[[[]|e] c1] t1]|]; try reflexivity.
    rewrite IH. reflexivity.
Qed.

(** Unless the policy is Raise and there are collisions, the run is the two
    reads and then one loop over [migrated_names]. *)
Lemma migrate_proceeds fuel request action batch_size (c : Clients)
    names c1 t1 collisions c2 t2 :
  select_source_collections request c = Some (Return names, c1, t1) ->
  find_collisions names c1 = Some (Return collisions, c2, t2) ->
  truthy collisions && MigrationCollisionAction_eqb action RAISE = false ->
  migrate fuel request action batch_size c
  = match for_each (migrate_one fuel batch_size)
                   (migrated_names names collisions action) c with
    | Some (r, c', t) => Some (r, c', [(Source, GetCollections); (Dest, GetCollections)] ++ t)
    | None => None
    end.
Proof.
  intros Hselect Hfind Hproceed.
  destruct (select_source_collections_run _ _ _ _ _ Hselect) as [-> ->].
  destruct (find_collisions_run _ _ _ _ _ Hfind) as [-> ->].
  unfold migrate. rewrite (mbind_returned _ _ _ _ _ _ Hselect).
  rewrite (mbind_returned _ _ _ _ _ _ Hfind). rewrite Hproceed.
  unfold migrated_names. rewrite for_each_app.
  change (fun collection_name : string =>
            mbind (recreate_collection collection_name)
                  (fun _ : unit => migrate_collection fuel collection_name batch_size))
    with (migrate_one fuel batch_size).
  destruct (truthy collisions && MigrationCollisionAction_eqb action SKIP);
    unfold mbind at 1; unfold ret at 1; cbv iota beta;
    destruct (mbind _ _ c) as [[[r c'] t]|]; reflexivity.
Qed.

(** X15. An empty list asks for every collection of the source, like [None]. *)
Theorem migrate_empty_request fuel action batch_size (c : Clients) :
  migrate fuel (Some []) action batch_size c = migrate fuel None action batch_size c.
Proof.
  unfold migrate, mbind. rewrite select_source_collections_empty. reflexivity.
Qed.

(** X16. A request for a collection that the source does not have ends the run
    on the assertion that shows the missing names, whatever the policy: the
    source was read once, the destination was not called at all. *)
Theorem migrate_missing_collection fuel action batch_size (c : Clients)
    response (R : list string) n :
  QdrantBase.get_collections (source_client c) = Return response ->
  n ∈ R -> n ∉ collection_name_set response ->
  migrate fuel (Some R) action batch_size c
  = Some (Raise (AssertionError "Source client does not have collections: "
                                (ShownSet (list_to_set R ∖ collection_name_set response))),
          c, [(Source, GetCollections)])
  /\ n ∈ (list_to_set R ∖ collection_name_set response : gset string).
Proof.
  intros Hget Hin Hout. split.
  - apply migrate_selection_raises with (c1 := c) (t1 := [(Source, GetCollections)]).
    unfold select_source_collections, mbind, source_get_collections. rewrite Hget.
    destruct R as [|x R]; [inversion Hin|]. cbv [truthy truthy_list].
    destruct (forallb _ _) eqn:Hall; [|reflexivity].
    exfalso. apply Hout. exact (proj1 (forallb_names _ _) Hall n Hin).
  - apply elem_of_difference. split; [apply elem_of_list_to_set, Hin|exact Hout].
Qed.

(** X17. The collisions are the names that are both selected and at the
    destination, each once, also when the request repeats a name. Finding
    them is one read of the destination. *)
Theorem find_collisions_no_duplicates (c : Clients) collection_names response :
  QdrantBase.get_collections (dest_client c) = Return response ->
  exists collisions,
    find_collisions collection_names c = Some (Return collisions, c, [(Dest, GetCollections)])
    /\ NoDup collisions
    /\ forall n, n ∈ collisions
                 <-> n ∈ set_of collection_names /\ n ∈ collection_name_set response.
Proof.
  intros Hget. eexists. split; [apply find_collisions_spec, Hget|]. split.
  - apply NoDup_elements.
  - intros n. rewrite elem_of_elements, elem_of_intersection. tauto.
Qed.

(** X18. Without a collision the policy makes no difference. *)
Theorem migrate_policy_without_collisions fuel request batch_size (c : Clients)
    names c1 t1 c2 t2 (action action' : MigrationCollisionAction) :
  select_source_collections request c = Some (Return names, c1, t1) ->
  find_collisions names c1 = Some (Return [], c2, t2) ->
  migrate fuel request action batch_size c = migrate fuel request action' batch_size c.
Proof.
  intros Hselect Hfind.
  rewrite (migrate_proceeds _ _ action _ _ _ _ _ _ _ _ Hselect Hfind eq_refl).
  rewrite (migrate_proceeds _ _ action' _ _ _ _ _ _ _ _ Hselect Hfind eq_refl).
  reflexivity.
Qed.

(** X19. Whatever the policy and the outcome, a run writes to selected
    collections only. *)
Theorem migrate_writes_selected_only fuel request action batch_size (c : Clients)
    names c1 t1 r c' t :
  select_source_collections request c = Some (Return names, c1, t1) ->
  migrate fuel request action batch_size c = Some (r, c', t) ->
  forall call n, call ∈ t -> written call = Some n -> n ∈ set_of names.
Proof.
  intros Hselect Hrun.
  destruct (select_source_collections_run _ _ _ _ _ Hselect) as [-> ->].
  destruct (find_collisions names c) as [[[[collisions|e] c2] t2]|] eqn:Hfind.
  - destruct (find_collisions_run _ _ _ _ _ Hfind) as [-> ->].
    assert (Hcollisions : forall n, n ∈ collisions -> n ∈ set_of names).
    { unfold find_collisions, mbind, dest_get_collections in Hfind.
      destruct (QdrantBase.get_collections (dest_client c)) as [response|e];
        [|discriminate Hfind].
      injection Hfind as <-. intros n Hn.
      apply elem_of_elements, elem_of_intersection in Hn as [_ Hn]. exact Hn. }
    destruct (truthy collisions && MigrationCollisionAction_eqb action RAISE) eqn:Hraise.
    + unfold migrate in Hrun. rewrite (mbind_returned _ _ _ _ _ _ Hselect) in Hrun.
      rewrite (mbind_returned _ _ _ _ _ _ Hfind) in Hrun. rewrite Hraise in Hrun.
      injection Hrun as _ _ <-. intros call n Hcall Hwritten.
      apply elem_of_cons in Hcall as [->|Hcall]; [discriminate Hwritten|].
      apply elem_of_cons in Hcall as [->|Hcall]; [discriminate Hwritten|].
      inversion Hcall.
    + rewrite (migrate_proceeds _ _ _ _ _ _ _ _ _ _ _ Hselect Hfind Hraise) in Hrun.
      destruct (for_each _ _ c) as [[[r0 c0] t0]|] eqn:Hloop; [|discriminate Hrun].
      injection Hrun as _ _ <-. intros call n Hcall Hwritten.
      apply elem_of_cons in Hcall as [->|Hcall]; [discriminate Hwritten|].
      apply elem_of_cons in Hcall as [->|Hcall]; [discriminate Hwritten|].
      assert (Hall : every_call
                       (fun call => forall n, written call = Some n -> n ∈ set_of names)
                       (for_each (migrate_one fuel batch_size)
                                 (migrated_names names collisions action))).
      { apply every_call_for_each_in. intros x Hx.
        eapply every_call_impl; [|apply migrate_one_writes].
        intros call' Hcall' n' Hn'. rewrite (Hcall' n' Hn').
        unfold migrated_names in Hx. apply elem_of_app in Hx as [Hx|Hx].
        - apply elem_of_elements, elem_of_difference in Hx as [Hx _]. exact Hx.
        - revert Hx.
          destruct (truthy collisions && MigrationCollisionAction_eqb action SKIP);
            intros Hx;
            [inversion Hx|apply Hcollisions, Hx]. }
      specialize (Hall _ _ _ _ Hloop). rewrite Forall_forall in Hall.
      exact (Hall call Hcall n Hwritten).
  - unfold migrate in Hrun. rewrite (mbind_returned _ _ _ _ _ _ Hselect) in Hrun.
    rewrite (mbind_raised _ _ _ _ _ _ Hfind) in Hrun.
    destruct (find_collisions_run _ _ _ _ _ Hfind) as [-> ->].
    injection Hrun as _ _ <-. intros call n Hcall Hwritten.
    apply elem_of_cons in Hcall as [->|Hcall]; [discriminate Hwritten|].
    apply elem_of_cons in Hcall as [->|Hcall]; [discriminate Hwritten|]. inversion Hcall.
  - unfold find_collisions, mbind, dest_get_collections in Hfind.
    destruct (QdrantBase.get_collections (dest_client c)); discriminate Hfind.
Qed.

(** X20. Policy Recreate. A run that returns has recreated every selected
    collection once, the collections that were not at the destination first
    and then the collisions, which are overwritten. *)
Theorem migrate_recreate_overwrites fuel request batch_size (c : Clients)
    names c1 t1 collisions c2 t2 c' t :
  select_source_collections request c = Some (Return names, c1, t1) ->
  find_collisions names c1 = Some (Return collisions, c2, t2) ->
  migrate fuel request RECREATE batch_size c = Some (Return tt, c', t) ->
  omap recreated t = elements (set_of names ∖ list_to_set collisions) ++ collisions
  /\ omap recreated t ≡ₚ elements (set_of names)
  /\ forall n, n ∈ collisions ->
       exists before run after (ca cb : Clients),
         t = before ++ run ++ after
         /\ migrate_collection fuel n batch_size ca = Some (Return tt, cb, run).
Proof.
  intros Hselect Hfind Hrun.
  assert (Hproceed : truthy collisions && MigrationCollisionAction_eqb RECREATE RAISE = false)
    by apply andb_false_r.
  rewrite (migrate_proceeds _ _ _ _ _ _ _ _ _ _ _ Hselect Hfind Hproceed) in Hrun.
  destruct (for_each _ _ c) as [[[r0 c0] t0]|] eqn:Hloop; [|discriminate Hrun].
  injection Hrun as -> -> Ht.
  assert (Hnames : migrated_names names collisions RECREATE
                   = elements (set_of names ∖ list_to_set collisions) ++ collisions).
  { unfold migrated_names. simpl MigrationCollisionAction_eqb. rewrite andb_false_r.
    reflexivity. }
  rewrite Hnames in Hloop.
  assert (Hrecreated : omap recreated t
                       = elements (set_of names ∖ list_to_set collisions) ++ collisions).
  { rewrite <- Ht, <- (for_each_recreated _ _ _ _ _ _ Hloop). reflexivity. }
  split; [exact Hrecreated|]. split.
  - rewrite Hrecreated.
    destruct (select_source_collections_run _ _ _ _ _ Hselect) as [-> ->].
    unfold find_collisions, mbind, dest_get_collections in Hfind.
    destruct (QdrantBase.get_collections (dest_client c)) as [response|e];
      [|discriminate Hfind].
    injection Hfind as <- _ _.
    apply NoDup_Permutation.
    + apply NoDup_app. split; [apply NoDup_elements|]. split; [|apply NoDup_elements].
      intros n Hn Hn'. apply elem_of_elements, elem_of_difference in Hn as [_ Hn].
      apply Hn, elem_of_list_to_set, Hn'.
    + apply NoDup_elements.
    + intros n. rewrite elem_of_app, !elem_of_elements, elem_of_difference,
        elem_of_list_to_set, elem_of_elements, elem_of_intersection.
      destruct (decide (n ∈ collection_name_set response)); tauto.
  - intros n Hn.
    assert (Hin : n ∈ elements (set_of names ∖ list_to_set collisions) ++ collisions)
      by (apply elem_of_app; right; exact Hn).
    destruct (for_each_migrated _ _ _ _ _ _ _ Hloop Hin)
      as (before & run & after & ca & cb & -> & Hone).
    exists ([(Source, GetCollections); (Dest, GetCollections)] ++ before), run, after, ca, cb.
    split; [rewrite <- Ht, <- app_assoc; reflexivity|exact Hone].
Qed.

(** *** One collection *)



(** X23. The loop tests the cursor for truthiness: when the first page comes with
    a cursor that is 0, the empty string or [None], the copy is that one page,
    whatever the source still holds. *)
Theorem copy_stops_at_falsy_cursor fuel collection_name batch_size (c : Clients)
    records next d :
  QdrantBase.scroll (source_client c) collection_name PyNone batch_size true
  = Return (records, next) ->
  truthy next = false ->
  QdrantBase.upload_records (dest_client c) collection_name records = (Return tt, d) ->
  copy_pages fuel collection_name batch_size c
  = Some (Return tt, {| source_client := source_client c; dest_client := d |},
          [(Source, Scroll collection_name PyNone batch_size true);
           (Dest, UploadRecords collection_name records)]).
Proof.
  intros Hscroll Hfalsy Hupload.
  unfold copy_pages, mbind at 1, source_scroll. rewrite Hscroll. cbv iota beta.
  unfold mbind, dest_upload_records, dest_write. rewrite Hupload.
  destruct fuel; simpl; rewrite Hfalsy; reflexivity.
Qed.

(** X25. When the first scroll raises, as for a collection that the source does
    not have, [migrate_collection] ends on that exception: nothing is
    uploaded and no count is read. *)
Theorem migrate_collection_scroll_raises fuel collection_name batch_size (c : Clients) e :
  QdrantBase.scroll (source_client c) collection_name PyNone batch_size true = Raise e ->
  migrate_collection fuel collection_name batch_size c
  = Some (Raise e, c, [(Source, Scroll collection_name PyNone batch_size true)]).
Proof.
  intros Hscroll. apply migrate_collection_copy_raises.
  unfold copy_pages, mbind, source_scroll. rewrite Hscroll. reflexivity.
Qed.

Lemma for_each_raises_at fuel batch_size l1 x l2 (c c1 c2 : Clients) t1 t2 e :
  for_each (migrate_one fuel batch_size) l1 c = Some (Return tt, c1, t1) ->
  migrate_one fuel batch_size x c1 = Some (Raise e, c2, t2) ->
  for_each (migrate_one fuel batch_size) (l1 ++ x :: l2) c = Some (Raise e, c2, t1 ++ t2).
Proof.
  intros Hbefore Hraise. rewrite for_each_app.
  rewrite (mbind_returned _ _ _ _ _ _ Hbefore). cbn [for_each].
  rewrite (mbind_raised _ _ _ _ _ _ Hraise). reflexivity.
Qed.

(** X26. A run ends at the first collection whose migration raises, on that
    exception. The collections before it stay migrated, the one that failed
    stays as the failure left it, the collections after it are not touched:
    the calls of the run end with the calls of the failed migration. *)
Theorem migrate_stops_at_first_exception fuel request action batch_size (c : Clients)
    names c1 t1 collisions c2 t2 before x after (ca cb : Clients) ta tb e :
  select_source_collections request c = Some (Return names, c1, t1) ->
  find_collisions names c1 = Some (Return collisions, c2, t2) ->
  truthy collisions && MigrationCollisionAction_eqb action RAISE = false ->
  migrated_names names collisions action = before ++ x :: after ->
  for_each (migrate_one fuel batch_size) before c = Some (Return tt, ca, ta) ->
  migrate_one fuel batch_size x ca = Some (Raise e, cb, tb) ->
  migrate fuel request action batch_size c
  = Some (Raise e, cb, [(Source, GetCollections); (Dest, GetCollections)] ++ ta ++ tb).
Proof.
  intros Hselect Hfind Hproceed Hnames Hbefore Hraise.
  rewrite (migrate_proceeds _ _ _ _ _ _ _ _ _ _ _ Hselect Hfind Hproceed), Hnames.
  rewrite (for_each_raises_at _ _ _ _ after _ _ _ _ _ _ Hbefore Hraise). reflexivity.
Qed.

(** *** The pages of a copy *)

Lemma uploaded_records_page_calls collection_name batch_size offset
    (steps : list (list Point * PyValue)) :
  uploaded_records (page_calls collection_name batch_size offset steps : list Call)
  = concat (fst <$> steps).
Proof.
  revert offset. induction steps as [|[records next_offset] steps IH]; intros offset.
  - reflexivity.
  - change (concat (fst <$> (records, next_offset) :: steps))
      with (records ++ concat (fst <$> steps)).
    rewrite <- IH with (offset := next_offset). reflexivity.
Qed.

Lemma scroll_loop_chain collection_name batch_size steps :
  forall fuel offset (c : Clients) d,
    cursor_chain (source_client c) collection_name batch_size offset steps ->
    upload_all (dest_client c) collection_name (fst <$> steps) = Some d ->
    (length steps <= fuel)%nat ->
    scroll_loop fuel collection_name batch_size offset c
    = Some (Return tt, {| source_client := source_client c; dest_client := d |},
            page_calls collection_name batch_size offset steps).
Proof.
  induction steps as [|[records next_offset] steps IH]; intros fuel offset c d.
  - cbn [cursor_chain upload_all fmap list_fmap page_calls]. intros Hfalsy Hd _.
    injection Hd as <-. destruct c as [s d0].
    destruct fuel; simpl; rewrite Hfalsy; reflexivity.
  - cbn [cursor_chain page_calls]. intros (Htruthy & Hscroll & Hchain) Hd Hfuel.
    destruct fuel as [|fuel]; [simpl in Hfuel; lia|].
    change (upload_all (dest_client c) collection_name (fst <$> (records, next_offset) :: steps))
      with (match QdrantBase.upload_records (dest_client c) collection_name records with
            | (Return _, dest') => upload_all dest' collection_name (fst <$> steps)
            | (Raise _, _) => None
            end) in Hd.
    simpl scroll_loop. rewrite Htruthy.
    unfold mbind at 1, source_scroll. rewrite Hscroll. cbv iota beta.
    unfold mbind, dest_upload_records, dest_write.
    destruct (QdrantBase.upload_records (dest_client c) collection_name records)
      as [[[]|e] d1]; [|discriminate Hd].
    rewrite (IH fuel next_offset {| source_client := source_client c; dest_client := d1 |} d
                Hchain Hd); [reflexivity|simpl in Hfuel; lia].
Qed.

(** X22. The copy follows the cursors of the source. The first read is without
    a cursor; while the cursor that came back is truthy the next read is at
    that cursor. Every page is uploaded right after it was read and as it was
    read, so that the uploads are the pages in their order. The copy returns
    after the first falsy cursor. *)
Theorem copy_pages_follows_cursors fuel collection_name batch_size (c : Clients)
    records next_offset steps d :
  QdrantBase.scroll (source_client c) collection_name PyNone batch_size true
  = Return (records, next_offset) ->
  cursor_chain (source_client c) collection_name batch_size next_offset steps ->
  upload_all (dest_client c) collection_name (records :: (fst <$> steps)) = Some d ->
  (length steps <= fuel)%nat ->
  exists t,
    copy_pages fuel collection_name batch_size c
    = Some (Return tt, {| source_client := source_client c; dest_client := d |}, t)
    /\ t = (Source, Scroll collection_name PyNone batch_size true)
           :: (Dest, UploadRecords collection_name records)
           :: page_calls collection_name batch_size next_offset steps
    /\ uploaded_records t = records ++ concat (fst <$> steps).
Proof.
  intros Hscroll Hchain Hd Hfuel. eexists. split; [|split; [reflexivity|]].
  - unfold copy_pages, mbind at 1, source_scroll. rewrite Hscroll. cbv iota beta.
    unfold mbind, dest_upload_records, dest_write. cbn [upload_all] in Hd.
    destruct (QdrantBase.upload_records (dest_client c) collection_name records)
      as [[[]|e] d1]; [|discriminate Hd].
    rewrite (scroll_loop_chain
               collection_name batch_size steps fuel next_offset
               {| source_client := source_client c; dest_client := d1 |} d Hchain Hd Hfuel).
    reflexivity.
  - rewrite <- (uploaded_records_page_calls collection_name batch_size next_offset steps).
    reflexivity.
Qed.

(** X24. An upload that raises ends [migrate_collection] on that exception: no
    further page is read and the counts are not compared. *)
Theorem migrate_collection_upload_raises fuel collection_name batch_size (c : Clients)
    records next_offset e d :
  QdrantBase.scroll (source_client c) collection_name PyNone batch_size true
  = Return (records, next_offset) ->
  QdrantBase.upload_records (dest_client c) collection_name records = (Raise e, d) ->
  migrate_collection fuel collection_name batch_size c
  = Some (Raise e, {| source_client := source_client c; dest_client := d |},
          [(Source, Scroll collection_name PyNone batch_size true);
           (Dest, UploadRecords collection_name records)]).
Proof.
  intros Hscroll Hupload. apply migrate_collection_copy_raises.
  unfold copy_pages, mbind at 1, source_scroll. rewrite Hscroll. cbv iota beta.
  unfold mbind, dest_upload_records, dest_write. rewrite Hupload. reflexivity.
Qed.

End MigrateProperties.

(** ** Runs over the client in memory *)

Section LocalRuns.

Context {Model Point : Type}.

Abbreviation Store := (gmap string (LocalClient.Collection Model Point)).


Lemma local_scroll (src dst : Store) collection_name collection offset start limit :
  src !! collection_name = Some collection ->
  LocalClient.position offset = Some start ->
  source_scroll collection_name offset limit true
                {| source_client := src; dest_client := dst |}
  = Some (Return (LocalClient.page_of (LocalClient.stored_points collection) start limit),
          {| source_client := src; dest_client := dst |},
          [(Source, Scroll collection_name offset limit true)]).
Proof.
  intros Hc Hp. unfold source_scroll. simpl. unfold LocalClient.scroll.
  rewrite Hc, Hp. reflexivity.
Qed.

Lemma local_upload (src dst : Store) collection_name collection records :
  dst !! collection_name = Some collection ->
  dest_upload_records collection_name records
                      {| source_client := src; dest_client := dst |}
  = Some (Return tt,
          {| source_client := src;
             dest_client :=
               <[collection_name :=
                   LocalClient.with_points
                     collection (LocalClient.stored_points collection ++ records)]>
               dst |},
          [(Dest, UploadRecords collection_name records)]).
Proof.
  intros Hc. unfold dest_upload_records, dest_write. simpl.
  unfold LocalClient.upload_records. rewrite Hc. reflexivity.
Qed.

Lemma local_get_collection (client : Store) collection_name collection :
  client !! collection_name = Some collection ->
  LocalClient.get_collection client collection_name
  = Return {| models.config := LocalClient.stored_config collection;
              models.payload_schema := LocalClient.stored_payload_schema collection;
              models.vectors_count :=
                Z.of_nat (length (LocalClient.stored_points collection)) |}.
Proof. intros Hc. unfold LocalClient.get_collection. rewrite Hc. reflexivity. Qed.

Lemma local_source_count (src dst : Store) collection_name collection :
  src !! collection_name = Some collection ->
  source_get_collection collection_name {| source_client := src; dest_client := dst |}
  = Some (Return {| models.config := LocalClient.stored_config collection;
                    models.payload_schema := LocalClient.stored_payload_schema collection;
                    models.vectors_count :=
                      Z.of_nat (length (LocalClient.stored_points collection)) |},
          {| source_client := src; dest_client := dst |},
          [(Source, GetCollection collection_name)]).
Proof.
  intros Hc. unfold source_get_collection. simpl. unfold LocalClient.get_collection.
  rewrite Hc. reflexivity.
Qed.

Lemma local_dest_count (src dst : Store) collection_name collection :
  dst !! collection_name = Some collection ->
  dest_get_collection collection_name {| source_client := src; dest_client := dst |}
  = Some (Return {| models.config := LocalClient.stored_config collection;
                    models.payload_schema := LocalClient.stored_payload_schema collection;
                    models.vectors_count :=
                      Z.of_nat (length (LocalClient.stored_points collection)) |},
          {| source_client := src; dest_client := dst |},
          [(Dest, GetCollection collection_name)]).
Proof.
  intros Hc. unfold dest_get_collection. simpl. unfold LocalClient.get_collection.
  rewrite Hc. reflexivity.
Qed.

(** *** Paging to the end *)

Lemma page_of_length (points : list Point) start limit :
  length (fst (LocalClient.page_of points start limit))
  = Nat.min (Z.to_nat limit) (length points - start).
Proof. unfold LocalClient.page_of. simpl. rewrite length_take, length_drop. reflexivity. Qed.

Lemma uploaded_records_app (t1 t2 : list (Side * Request Model Point)) :
  uploaded_records (t1 ++ t2) = uploaded_records t1 ++ uploaded_records t2.
Proof. unfold uploaded_records. rewrite omap_app, fmap_app, concat_app. reflexivity. Qed.

Lemma with_points_twice (collection : LocalClient.Collection Model Point) p q :
  LocalClient.with_points (LocalClient.with_points collection p) q
  = LocalClient.with_points collection q.
Proof. reflexivity. Qed.

(** The loop from a cursor inside the collection: with fuel for the points
    that are left it ends, and it has uploaded those points, in their order. *)
Lemma scroll_loop_local (src : Store) collection_name source_collection batch_size :
  src !! collection_name = Some source_collection ->
  0 < batch_size ->
  forall fuel start (dst : Store) dest_collection,
    dst !! collection_name = Some dest_collection ->
    (0 < start < length (LocalClient.stored_points source_collection))%nat ->
    (length (LocalClient.stored_points source_collection) - start <= fuel)%nat ->
    exists t,
      scroll_loop fuel collection_name batch_size (PyInt (Z.of_nat start))
                  {| source_client := src; dest_client := dst |}
      = Some (Return tt,
              {| source_client := src;
                 dest_client :=
                   <[collection_name :=
                       LocalClient.with_points
                         dest_collection
                         (LocalClient.stored_points dest_collection
                          ++ drop start (LocalClient.stored_points source_collection))]>
                   dst |},
              t)
      /\ uploaded_records t = drop start (LocalClient.stored_points source_collection).
Proof.
  intros Hsrc Hbatch. set (points := LocalClient.stored_points source_collection).
  induction fuel as [|fuel IH]; intros start dst dest_collection Hdst Hstart Hfuel; [lia|].
  assert (Htruthy : truthy (PyInt (Z.of_nat start)) = true).
  { unfold truthy, truthy_PyValue, truthy, truthy_int.
    destruct (Z.eqb_spec (Z.of_nat start) 0); [lia|reflexivity]. }
  assert (Hposition : LocalClient.position (PyInt (Z.of_nat start)) = Some start).
  { unfold LocalClient.position. destruct (Z.leb_spec 0 (Z.of_nat start)); [|lia].
    rewrite Nat2Z.id. reflexivity. }
  rewrite (scroll_loop_step fuel collection_name batch_size _ Htruthy).
  rewrite (mbind_returned _ _ _ _ _ _
             (local_scroll src dst _ _ _ start batch_size Hsrc Hposition)).
  fold points.
  pose proof (page_of_length points start batch_size) as Hlength.
  unfold LocalClient.page_of in *. cbn [fst] in Hlength.
  set (rest := drop start points) in *. set (page := take (Z.to_nat batch_size) rest) in *.
  assert (Hrest : length rest = (length points - start)%nat) by apply length_drop.
  cbv beta iota.
  rewrite (mbind_returned _ _ _ _ _ _ (local_upload src dst _ _ page Hdst)).
  set (dest1 := LocalClient.with_points dest_collection
                  (LocalClient.stored_points dest_collection ++ page)).
  destruct (Nat.ltb_spec (length page) (length rest)) as [Hmore|Hlast].
  - destruct (IH (start + length page)%nat (<[collection_name := dest1]> dst) dest1)
      as (t & Hrun & Hup); [apply lookup_insert_eq|lia|lia|].
    rewrite Hrun. eexists. split.
    + rewrite insert_insert_eq. subst dest1. rewrite with_points_twice.
      cbn [LocalClient.stored_points LocalClient.with_points].
      replace (drop (start + length page) points) with (drop (length page) rest)
        by (subst rest; rewrite drop_drop; reflexivity).
      rewrite <- app_assoc.
      replace (page ++ drop (length page) rest) with rest; [reflexivity|].
      subst page. rewrite length_take.
      replace (Nat.min (Z.to_nat batch_size) (length rest)) with (Z.to_nat batch_size)
        by (rewrite length_take in Hmore; lia).
      symmetry. apply take_drop.
    + change (uploaded_records ([(Source, Scroll collection_name (PyInt (Z.of_nat start))
                                           batch_size true)]
                                ++ [(Dest, UploadRecords collection_name page)] ++ t))
        with (page ++ uploaded_records t).
      rewrite Hup.
      replace (drop (start + length page) points) with (drop (length page) rest)
        by (subst rest; rewrite drop_drop; reflexivity).
      subst page. rewrite length_take.
      replace (Nat.min (Z.to_nat batch_size) (length rest)) with (Z.to_nat batch_size)
        by (rewrite length_take in Hmore; lia).
      apply take_drop.
  - assert (Hpage : page = rest).
    { subst page. apply take_ge. rewrite length_take in Hlast. lia. }
    rewrite (scroll_loop_end fuel collection_name batch_size PyNone eq_refl).
    eexists. split.
    + unfold ret. subst dest1. rewrite Hpage. reflexivity.
    + unfold uploaded_records. simpl. rewrite app_nil_r. exact Hpage.
Qed.

(** The copy of a whole collection: for every batch size above zero and fuel
    for the points, [copy_pages] returns, the destination collection ends
    with the points of the source appended, and the uploads are those points,
    in their order. *)
Lemma copy_pages_local (src dst : Store) collection_name source_collection
    dest_collection batch_size fuel :
  src !! collection_name = Some source_collection ->
  dst !! collection_name = Some dest_collection ->
  0 < batch_size ->
  (length (LocalClient.stored_points source_collection) <= fuel)%nat ->
  exists t,
    copy_pages fuel collection_name batch_size
               {| source_client := src; dest_client := dst |}
    = Some (Return tt,
            {| source_client := src;
               dest_client :=
                 <[collection_name :=
                     LocalClient.with_points
                       dest_collection
                       (LocalClient.stored_points dest_collection
                        ++ LocalClient.stored_points source_collection)]>
                 dst |},
            t)
    /\ uploaded_records t = LocalClient.stored_points source_collection.
Proof.
  intros Hsrc Hdst Hbatch Hfuel.
  set (points := LocalClient.stored_points source_collection) in *.
  unfold copy_pages.
  rewrite (mbind_returned _ _ _ _ _ _
             (local_scroll src dst _ _ PyNone O batch_size Hsrc eq_refl)).
  fold points.
  pose proof (page_of_length points O batch_size) as Hlength.
  unfold LocalClient.page_of in *. cbn [fst] in Hlength.
  change (drop 0 points) with points in *.
  set (page := take (Z.to_nat batch_size) points) in *.
  cbv beta iota.
  rewrite (mbind_returned _ _ _ _ _ _ (local_upload src dst _ _ page Hdst)).
  set (dest1 := LocalClient.with_points dest_collection
                  (LocalClient.stored_points dest_collection ++ page)).
  destruct (Nat.ltb_spec (length page) (length points)) as [Hmore|Hlast].
  - destruct (scroll_loop_local src collection_name source_collection batch_size Hsrc Hbatch
                fuel (length page) (<[collection_name := dest1]> dst) dest1)
      as (t & Hrun & Hup); [apply lookup_insert_eq|fold points; lia|fold points; lia|].
    cbn [Nat.add]. rewrite Hrun. fold points in Hup |- *. eexists. split.
    + rewrite insert_insert_eq. subst dest1. rewrite with_points_twice.
      cbn [LocalClient.stored_points LocalClient.with_points].
      rewrite <- app_assoc.
      replace (page ++ drop (length page) points) with points; [reflexivity|].
      subst page. rewrite length_take.
      replace (Nat.min (Z.to_nat batch_size) (length points)) with (Z.to_nat batch_size)
        by (rewrite length_take in Hmore; lia).
      symmetry. apply take_drop.
    + change (uploaded_records ([(Source, Scroll collection_name PyNone batch_size true)]
                                ++ [(Dest, UploadRecords collection_name page)] ++ t))
        with (page ++ uploaded_records t).
      rewrite Hup. subst page. rewrite length_take.
      replace (Nat.min (Z.to_nat batch_size) (length points)) with (Z.to_nat batch_size)
        by (rewrite length_take in Hmore; lia).
      apply take_drop.
  - assert (Hpage : page = points).
    { subst page. apply take_ge. rewrite length_take in Hlast. lia. }
    rewrite (scroll_loop_end fuel collection_name batch_size PyNone eq_refl).
    eexists. split.
    + unfold ret. subst dest1. rewrite Hpage. reflexivity.
    + unfold uploaded_records. simpl. rewrite app_nil_r. exact Hpage.
Qed.

(** Into an empty destination collection the migration returns: the counts
    are equal. *)
Lemma migrate_collection_local (src dst : Store) collection_name source_collection
    dest_collection batch_size fuel :
  src !! collection_name = Some source_collection ->
  dst !! collection_name = Some dest_collection ->
  LocalClient.stored_points dest_collection = [] ->
  0 < batch_size ->
  (length (LocalClient.stored_points source_collection) <= fuel)%nat ->
  exists t,
    migrate_collection fuel collection_name batch_size
                       {| source_client := src; dest_client := dst |}
    = Some (Return tt,
            {| source_client := src;
               dest_client :=
                 <[collection_name :=
                     LocalClient.with_points dest_collection
                                             (LocalClient.stored_points source_collection)]>
                 dst |},
            t)
    /\ uploaded_records t = LocalClient.stored_points source_collection.
Proof.
  intros Hsrc Hdst Hempty Hbatch Hfuel.
  destruct (copy_pages_local src dst collection_name source_collection dest_collection
              batch_size fuel Hsrc Hdst Hbatch Hfuel) as (t & Hcopy & Hup).
  rewrite Hempty in Hcopy. cbn [app] in Hcopy.
  pose proof (migrate_collection_after_copy
                fuel collection_name batch_size _ _ _ _ _ Hcopy
                (local_get_collection src _ _ Hsrc)
                (local_get_collection _ _ _ (lookup_insert_eq _ _ _))) as Hrun.
  eexists. split.
  - rewrite Hrun. cbn [models.vectors_count LocalClient.with_points LocalClient.stored_points].
    rewrite Z.eqb_refl. reflexivity.
  - rewrite uploaded_records_app, Hup. apply app_nil_r.
Qed.

(** *** The whole run returns *)

Lemma local_create_payload_index (src dst : Store) collection_name collection
    field_name field_schema :
  dst !! collection_name = Some collection ->
  dest_create_payload_index collection_name field_name field_schema
                            {| source_client := src; dest_client := dst |}
  = Some (Return tt,
          {| source_client := src;
             dest_client :=
               <[collection_name :=
                   {| LocalClient.stored_config := LocalClient.stored_config collection;
                      LocalClient.stored_payload_schema :=
                        LocalClient.stored_payload_schema collection
                        ++ [(field_name, {| models.type := field_schema;
                                            models.index_params := None |})];
                      LocalClient.stored_points := LocalClient.stored_points collection |}]>
               dst |},
          [(Dest, CreatePayloadIndex collection_name field_name field_schema)]).
Proof.
  intros Hc. unfold dest_create_payload_index, dest_write. simpl.
  unfold LocalClient.create_payload_index. rewrite Hc. reflexivity.
Qed.

Lemma local_payload_schema (src : Store) collection_name payload_schema :
  forall (dst : Store) dest_collection,
    dst !! collection_name = Some dest_collection ->
    exists dest_collection' t,
      recreate_payload_schema collection_name payload_schema
                              {| source_client := src; dest_client := dst |}
      = Some (Return tt,
              {| source_client := src;
                 dest_client := <[collection_name := dest_collection']> dst |}, t)
      /\ LocalClient.stored_points dest_collection'
         = LocalClient.stored_points dest_collection.
Proof.
  unfold recreate_payload_schema.
  induction payload_schema as [|[field_name field_info] payload_schema IH];
    intros dst dest_collection Hdst.
  - exists dest_collection, []. split; [|reflexivity].
    simpl. unfold ret. rewrite insert_id by exact Hdst. reflexivity.
  - cbn [for_each]. cbv beta iota.
    rewrite (mbind_returned _ _ _ _ _ _
               (local_create_payload_index src dst _ _ field_name _ Hdst)).
    match goal with
    | |- context [<[collection_name := ?created]> dst] =>
      destruct (IH (<[collection_name := created]> dst) created (lookup_insert_eq _ _ _))
        as (dest_collection' & t & Hrun & Hpoints)
    end.
    rewrite Hrun. rewrite insert_insert_eq.
    exists dest_collection'. eexists. split; [reflexivity|exact Hpoints].
Qed.

Lemma local_recreate_collection `{models.Constructors Model}
    (src dst : Store) collection_name source_collection :
  src !! collection_name = Some source_collection ->
  exists dest_collection t,
    recreate_collection collection_name {| source_client := src; dest_client := dst |}
    = Some (Return tt,
            {| source_client := src;
               dest_client := <[collection_name := dest_collection]> dst |}, t)
    /\ LocalClient.stored_points dest_collection = [].
Proof.
  intros Hsrc. unfold recreate_collection.
  rewrite (mbind_returned _ _ _ _ _ _ (local_source_count src dst _ _ Hsrc)).
  unfold mbind at 1. unfold dest_recreate_collection, dest_write.
  cbn [QdrantBase.recreate_collection LocalClient.base dest_client source_client].
  unfold LocalClient.recreate_collection.
  match goal with
  | |- context [recreate_payload_schema _ _
                  {| source_client := _; dest_client := <[_ := ?created]> _ |}] =>
    destruct (local_payload_schema
                src collection_name
                (LocalClient.stored_payload_schema source_collection)
                (<[collection_name := created]> dst) created (lookup_insert_eq _ _ _))
      as (dest_collection & t & Hrun & Hpoints)
  end.
  cbn [models.payload_schema]. rewrite Hrun. rewrite insert_insert_eq.
  exists dest_collection. eexists. split; [reflexivity|exact Hpoints].
Qed.

Lemma local_migrate_one `{models.Constructors Model}
    (src dst : Store) collection_name source_collection batch_size fuel :
  src !! collection_name = Some source_collection ->
  0 < batch_size ->
  (length (LocalClient.stored_points source_collection) <= fuel)%nat ->
  exists dst' t,
    migrate_one fuel batch_size collection_name
                {| source_client := src; dest_client := dst |}
    = Some (Return tt, {| source_client := src; dest_client := dst' |}, t)
    /\ LocalClient.stored_points <$> dst' !! collection_name
       = Some (LocalClient.stored_points source_collection).
Proof.
  intros Hsrc Hbatch Hfuel.
  destruct (local_recreate_collection src dst collection_name source_collection Hsrc)
    as (dest_collection & t1 & Hrecreate & Hempty).
  destruct (migrate_collection_local
              src (<[collection_name := dest_collection]> dst) collection_name
              source_collection dest_collection batch_size fuel
              Hsrc (lookup_insert_eq _ _ _) Hempty Hbatch Hfuel)
    as (t2 & Hmigrate & _).
  unfold migrate_one. rewrite (mbind_returned _ _ _ _ _ _ Hrecreate), Hmigrate.
  eexists _, _. split; [reflexivity|].
  rewrite lookup_insert_eq. reflexivity.
Qed.

Lemma local_for_each `{models.Constructors Model}
    (src : Store) batch_size fuel (l : list string) :
  0 < batch_size ->
  (forall n, n ∈ l ->
             exists source_collection,
               src !! n = Some source_collection
               /\ (length (LocalClient.stored_points source_collection) <= fuel)%nat) ->
  forall dst : Store,
    exists dst' t,
      for_each (migrate_one fuel batch_size) l {| source_client := src; dest_client := dst |}
      = Some (Return tt, {| source_client := src; dest_client := dst' |}, t).
Proof.
  intros Hbatch. induction l as [|n l IH]; intros Hl dst.
  - exists dst, []. reflexivity.
  - destruct (Hl n) as (source_collection & Hsrc & Hfuel); [left|].
    destruct (local_migrate_one src dst n source_collection batch_size fuel
                                Hsrc Hbatch Hfuel) as (dst1 & t1 & Hone & _).
    destruct (IH (fun m Hm => Hl m (list_elem_of_further _ _ _ Hm)) dst1)
      as (dst' & t2 & Hrest).
    exists dst'. eexists. cbn [for_each].
    rewrite (mbind_returned _ _ _ _ _ _ Hone), Hrest. reflexivity.
Qed.

(** The names of the client in memory are the keys of its dictionary. *)
Lemma local_collection_names (client : Store) response n :
  LocalClient.get_collections client = Return response ->
  n ∈ collection_name_set response <-> is_Some (client !! n).
Proof.
  unfold LocalClient.get_collections. intros Hget. injection Hget as <-.
  unfold collection_name_set. cbn [models.collections].
  rewrite elem_of_list_to_set, <- list_fmap_compose, list_elem_of_fmap. split.
  - intros ([m collection] & -> & Hin). apply elem_of_map_to_list in Hin.
    exists collection. exact Hin.
  - intros [collection Hlookup]. exists (n, collection). split; [reflexivity|].
    apply elem_of_map_to_list. exact Hlookup.
Qed.

Lemma local_selected (src dst : Store) request names c1 t1 n :
  select_source_collections request {| source_client := src; dest_client := dst |}
  = Some (Return names, c1, t1) ->
  n ∈ set_of names -> is_Some (src !! n).
Proof.
  unfold select_source_collections, mbind, source_get_collections.
  cbn [QdrantBase.get_collections LocalClient.base source_client].
  destruct (LocalClient.get_collections src) as [response|e] eqn:Hget; [|discriminate].
  intros Hselect Hn. apply (local_collection_names src response n Hget).
  destruct request as [R|]; [destruct (truthy R); [destruct (forallb _ R) eqn:Hall|]|];
    try discriminate; injection Hselect as <- _ _; try exact Hn.
  cbn [set_of] in Hn. apply elem_of_list_to_set in Hn.
  exact (proj1 (forallb_names _ _) Hall n Hn).
Qed.

(** Policy Skip between two clients in memory: for every request that the
    source can serve, every positive batch size and fuel for the largest
    collection, the run returns. *)
Lemma local_migrate_skip_returns `{models.Constructors Model}
    (src dst : Store) request batch_size fuel names c1 t1 :
  select_source_collections request {| source_client := src; dest_client := dst |}
  = Some (Return names, c1, t1) ->
  0 < batch_size ->
  (forall n source_collection,
      src !! n = Some source_collection ->
      (length (LocalClient.stored_points source_collection) <= fuel)%nat) ->
  exists dst' t,
    migrate fuel request SKIP batch_size {| source_client := src; dest_client := dst |}
    = Some (Return tt, {| source_client := src; dest_client := dst' |}, t).
Proof.
  intros Hselect Hbatch Hfuel.
  destruct (select_source_collections_run _ _ _ _ _ Hselect) as [-> ->].
  destruct (LocalClient.get_collections dst) as [response|e] eqn:Hget;
    [|discriminate Hget].
  pose proof (find_collisions_spec {| source_client := src; dest_client := dst |}
                                   names response Hget) as Hfind.
  rewrite (migrate_skip_run _ _ _ _ _ _ _ _ _ _ Hselect Hfind).
  destruct (local_for_each
              src batch_size fuel
              (elements (set_of names
                         ∖ list_to_set (elements (collection_name_set response
                                                  ∩ set_of names))))
              Hbatch) with (dst := dst) as (dst' & t & Hloop).
  - intros n Hn. apply elem_of_elements, elem_of_difference in Hn as [Hn _].
    destruct (local_selected src dst request names _ _ n Hselect Hn)
      as [source_collection Hsrc].
    exists source_collection. split; [exact Hsrc|]. eapply Hfuel, Hsrc.
  - rewrite Hloop. exists dst'. eexists. reflexivity.
Qed.

(** C5. Five records, batch size 2. The run scrolls three times, from the
    start, from cursor 2 and from cursor 4; the three pages are the records
    1-2, 3-4 and 5; each page is uploaded right after it was read, as it was
    read. The destination ends with the five records appended in their order,
    and the run returns when the destination collection was empty. *)
Theorem migrate_collection_five_records_by_two
    (collection_name : string) (src dst : Store) source_collection dest_collection
    (r1 r2 r3 r4 r5 : Point) (extra : nat) :
  src !! collection_name = Some source_collection ->
  LocalClient.stored_points source_collection = [r1; r2; r3; r4; r5] ->
  dst !! collection_name = Some dest_collection ->
  exists r dst',
    migrate_collection (2 + extra) collection_name 2
                       {| source_client := src; dest_client := dst |}
    = Some (r, {| source_client := src; dest_client := dst' |},
            [(Source, Scroll collection_name PyNone 2 true);
             (Dest, UploadRecords collection_name [r1; r2]);
             (Source, Scroll collection_name (PyInt 2) 2 true);
             (Dest, UploadRecords collection_name [r3; r4]);
             (Source, Scroll collection_name (PyInt 4) 2 true);
             (Dest, UploadRecords collection_name [r5]);
             (Source, GetCollection collection_name);
             (Dest, GetCollection collection_name)])
    /\ LocalClient.scroll src collection_name PyNone 2 true = Return ([r1; r2], PyInt 2)
    /\ LocalClient.scroll src collection_name (PyInt 2) 2 true = Return ([r3; r4], PyInt 4)
    /\ LocalClient.scroll src collection_name (PyInt 4) 2 true = Return ([r5], PyNone)
    /\ LocalClient.stored_points <$> dst' !! collection_name
       = Some (LocalClient.stored_points dest_collection ++ [r1; r2; r3; r4; r5])
    /\ (r = Return tt <-> LocalClient.stored_points dest_collection = []).
Proof.
  intros Hsrc Hpoints Hdst.
  pose proof (local_scroll src) as Hscroll.
  assert (Hs1 : LocalClient.scroll src collection_name PyNone 2 true
                = Return ([r1; r2], PyInt 2)).
  { unfold LocalClient.scroll. rewrite Hsrc. simpl. rewrite Hpoints. reflexivity. }
  assert (Hs2 : LocalClient.scroll src collection_name (PyInt 2) 2 true
                = Return ([r3; r4], PyInt 4)).
  { unfold LocalClient.scroll. rewrite Hsrc. simpl. rewrite Hpoints. reflexivity. }
  assert (Hs3 : LocalClient.scroll src collection_name (PyInt 4) 2 true
                = Return ([r5], PyNone)).
  { unfold LocalClient.scroll. rewrite Hsrc. simpl. rewrite Hpoints. reflexivity. }
  set (d0 := LocalClient.stored_points dest_collection).
  set (c1 := LocalClient.with_points dest_collection (d0 ++ [r1; r2])).
  set (c2 := LocalClient.with_points c1 (LocalClient.stored_points c1 ++ [r3; r4])).
  set (c3 := LocalClient.with_points c2 (LocalClient.stored_points c2 ++ [r5])).
  set (dst1 := <[collection_name := c1]> dst).
  set (dst2 := <[collection_name := c2]> dst1).
  set (dst3 := <[collection_name := c3]> dst2).
  assert (H1 : dst1 !! collection_name = Some c1) by apply lookup_insert_eq.
  assert (H2 : dst2 !! collection_name = Some c2) by apply lookup_insert_eq.
  assert (H3 : dst3 !! collection_name = Some c3) by apply lookup_insert_eq.
  assert (Hcount : LocalClient.stored_points c3 = d0 ++ [r1; r2; r3; r4; r5]).
  { subst c3 c2 c1. simpl. rewrite <- !app_assoc. reflexivity. }
  set (dest_count := Z.of_nat (length (d0 ++ [r1; r2; r3; r4; r5]))).
  exists (if 5 =? dest_count then Return tt
          else Raise (AssertionError "Migration failed, vectors count are not equal: "
                                     (ShownCounts 5 dest_count))), dst3.
  split; [|split; [exact Hs1|split; [exact Hs2|split; [exact Hs3|split]]]].
  - unfold migrate_collection, copy_pages.
    rewrite mbind_assoc.
    rewrite (mbind_returned _ _ _ _ _ _
               (local_scroll src dst _ _ PyNone O 2 Hsrc eq_refl)).
    rewrite Hpoints.
    change (LocalClient.page_of [r1; r2; r3; r4; r5] 0 2) with ([r1; r2], PyInt 2).
    cbv beta iota. rewrite mbind_assoc.
    rewrite (mbind_returned _ _ _ _ _ _ (local_upload src dst _ _ [r1; r2] Hdst)).
    fold d0 c1 dst1.
    change (2 + extra)%nat with (S (S extra)).
    rewrite (scroll_loop_step (S extra) collection_name 2 (PyInt 2) eq_refl).
    rewrite !mbind_assoc.
    rewrite (mbind_returned _ _ _ _ _ _
               (local_scroll src dst1 _ _ (PyInt 2) 2%nat 2 Hsrc eq_refl)).
    rewrite Hpoints.
    change (LocalClient.page_of [r1; r2; r3; r4; r5] 2 2) with ([r3; r4], PyInt 4).
    cbv beta iota. rewrite mbind_assoc.
    rewrite (mbind_returned _ _ _ _ _ _ (local_upload src dst1 _ _ [r3; r4] H1)).
    fold c2 dst2.
    rewrite (scroll_loop_step extra collection_name 2 (PyInt 4) eq_refl).
    rewrite !mbind_assoc.
    rewrite (mbind_returned _ _ _ _ _ _
               (local_scroll src dst2 _ _ (PyInt 4) 4%nat 2 Hsrc eq_refl)).
    rewrite Hpoints.
    change (LocalClient.page_of [r1; r2; r3; r4; r5] 4 2) with ([r5], PyNone).
    cbv beta iota. rewrite mbind_assoc.
    rewrite (mbind_returned _ _ _ _ _ _ (local_upload src dst2 _ _ [r5] H2)).
    fold c3 dst3.
    rewrite (scroll_loop_end extra collection_name 2 PyNone eq_refl).
    unfold mbind at 1. unfold ret at 1. cbv beta iota.
    rewrite (mbind_returned _ _ _ _ _ _ (local_source_count src dst3 _ _ Hsrc)).
    rewrite (mbind_returned _ _ _ _ _ _ (local_dest_count src dst3 _ _ H3)).
    cbn [models.vectors_count]. rewrite Hpoints. rewrite Hcount. fold dest_count.
    change (Z.of_nat (length [r1; r2; r3; r4; r5])) with 5.
    destruct (5 =? dest_count); reflexivity.
  - rewrite H3. exact (f_equal Some Hcount).
  - subst dest_count. rewrite length_app. simpl length.
    destruct d0 as [|x d0']; simpl length.
    + split; reflexivity.
    + destruct (5 =? _) eqn:Heq.
      * apply Z.eqb_eq in Heq. lia.
      * split; intros H; discriminate H.
Qed.

End LocalRuns.

(** ** Whole runs between two clients in memory *)

Section LocalReplicas.

Context {Model Point : Type} `{models.Constructors Model}.

Abbreviation Store := (gmap string (LocalClient.Collection Model Point)).






End LocalReplicas.

(** ** The run on three collections: the statements above at work *)

Lemma select_source_collections_witness :
  select_source_collections (Some ["a"; "c"]) Example.clients
  = Some (Return (NameList ["a"; "c"]), Example.clients, [(Source, GetCollections)])
  /\ select_source_collections (Some ["a"; "z"]) Example.clients
     = Some (Raise (AssertionError
                      "Source client does not have collections: "
                      (ShownSet (list_to_set ["a"; "z"]
                                 ∖ collection_name_set (Example.response_of ["c"; "a"; "b"])))),
             Example.clients, [(Source, GetCollections)])
  /\ ("z" ∈ (list_to_set ["a"; "z"]
             ∖ collection_name_set (Example.response_of ["c"; "a"; "b"]) : gset string)
      <-> "z" ∈ ["a"; "z"] /\ "z" ∉ collection_name_set (Example.response_of ["c"; "a"; "b"]))
  /\ select_source_collections None Example.clients
     = Some (Return (NameSet (collection_name_set (Example.response_of ["c"; "a"; "b"]))),
             Example.clients, [(Source, GetCollections)]).
Proof.
  assert (Hget : QdrantBase.get_collections (source_client Example.clients)
                 = Return (Example.response_of ["c"; "a"; "b"])).
  { vm_compute. reflexivity. }
  destruct (select_source_collections_spec Example.clients _ ["a"; "c"] Hget)
    as (Hall & _ & Hnone).
  destruct (select_source_collections_spec Example.clients _ ["a"; "z"] Hget)
    as (_ & Hmissing & _).
  split; [|split; [|split]].
  - apply Hall; [discriminate|].
    apply (proj1 (forallb_names _ _)). vm_compute. reflexivity.
  - apply Hmissing; [discriminate|]. exists "z".
    split; apply (bool_decide_unpack _); vm_compute; exact I.
  - apply Hmissing; [discriminate|]. exists "z".
    split; apply (bool_decide_unpack _); vm_compute; exact I.
  - exact Hnone.
Defined.

Lemma migrate_raise_witness :
  let calls : list (Side * Request nat nat) :=
    [(Source, GetCollections); (Dest, GetCollections)] in
  migrate 10 None RAISE 2 Example.clients
  = Some (Raise (ValueError "Collections already exist in dest_client: " (ShownList ["b"])),
          Example.clients, calls)
  /\ omap written calls = []
  /\ exists response,
      QdrantBase.get_collections (dest_client Example.clients) = Return response
      /\ forall n,
          n ∈ ["b"]
          <-> n ∈ set_of (NameSet (collection_name_set (Example.response_of ["c"; "a"; "b"])))
              /\ n ∈ collection_name_set response.
Proof.
  apply (migrate_raise_writes_nothing
           10 None 2 Example.clients
           (NameSet (collection_name_set (Example.response_of ["c"; "a"; "b"])))
           Example.clients [(Source, GetCollections)]
           ["b"] Example.clients [(Dest, GetCollections)]);
    vm_compute; reflexivity.
Defined.


Lemma migrate_collection_counts_witness :
  migrate_collection 10 "a" 2 Runs.clients_with_a
  = Some (Return tt, Runs.copied_a,
          Runs.copy_a_calls ++ [(Source, GetCollection "a"); (Dest, GetCollection "a")])
  /\ migrate_collection 10 "b" 2 Example.clients
     = Some (Raise (AssertionError "Migration failed, vectors count are not equal: "
                                   (ShownCounts 1 3)),
             Runs.copied_b,
             Runs.copy_b_calls ++ [(Source, GetCollection "b"); (Dest, GetCollection "b")]).
Proof.
  split.
  - refine (proj1 (migrate_collection_checks_counts
                     10 "a" 2 Runs.clients_with_a Runs.copied_a Runs.copy_a_calls
                     (Runs.info [1; 2; 3; 4; 5]%nat) (Runs.info [1; 2; 3; 4; 5]%nat)
                     _ _ _));
      vm_compute; reflexivity.
  - refine (proj1 (migrate_collection_checks_counts
                     10 "b" 2 Example.clients Runs.copied_b Runs.copy_b_calls
                     (Runs.info [6%nat]) (Runs.info [7; 8; 6]%nat)
                     _ _ _));
      vm_compute; reflexivity.
Defined.

Lemma migrate_collection_five_records_witness :
  exists r dst',
    migrate_collection 2 "a" 2 Runs.clients_with_a
    = Some (r, {| source_client := Example.source; dest_client := dst' |},
            [(Source, Scroll "a" PyNone 2 true);
             (Dest, UploadRecords "a" [1; 2]%nat);
             (Source, Scroll "a" (PyInt 2) 2 true);
             (Dest, UploadRecords "a" [3; 4]%nat);
             (Source, Scroll "a" (PyInt 4) 2 true);
             (Dest, UploadRecords "a" [5%nat]);
             (Source, GetCollection "a");
             (Dest, GetCollection "a")])
    /\ LocalClient.scroll Example.source "a" PyNone 2 true = Return ([1; 2]%nat, PyInt 2)
    /\ LocalClient.scroll Example.source "a" (PyInt 2) 2 true = Return ([3; 4]%nat, PyInt 4)
    /\ LocalClient.scroll Example.source "a" (PyInt 4) 2 true = Return ([5%nat], PyNone)
    /\ LocalClient.stored_points <$> dst' !! "a" = Some ([] ++ [1; 2; 3; 4; 5]%nat)
    /\ (r = Return tt <-> @nil nat = []).
Proof.
  apply (migrate_collection_five_records_by_two
           "a" Example.source Runs.dest_with_a
           (Example.collection [1; 2; 3; 4; 5]%nat) (Example.collection [])
           1%nat 2%nat 3%nat 4%nat 5%nat 0%nat);
    vm_compute; reflexivity.
Defined.

(** ** More runs on the three collections *)

Lemma migrate_missing_collection_witness :
  migrate 10 (Some ["a"; "z"]) RECREATE 2 Example.clients
  = Some (Raise (AssertionError
                   "Source client does not have collections: "
                   (ShownSet (list_to_set ["a"; "z"]
                              ∖ collection_name_set (Example.response_of ["c"; "a"; "b"])))),
          Example.clients, [(Source, GetCollections)])
  /\ "z" ∈ (list_to_set ["a"; "z"]
            ∖ collection_name_set (Example.response_of ["c"; "a"; "b"]) : gset string).
Proof.
  apply (migrate_missing_collection
           10 RECREATE 2 Example.clients (Example.response_of ["c"; "a"; "b"])
           ["a"; "z"] "z").
  - vm_compute. reflexivity.
  - apply (bool_decide_unpack _). vm_compute. exact I.
  - apply (bool_decide_unpack _). vm_compute. exact I.
Defined.

Lemma find_collisions_no_duplicates_witness :
  exists collisions,
    find_collisions (NameList ["b"; "a"; "b"]) Example.clients
    = Some (Return collisions, Example.clients, [(Dest, GetCollections)])
    /\ NoDup collisions
    /\ forall n, n ∈ collisions
                 <-> n ∈ set_of (NameList ["b"; "a"; "b"])
                     /\ n ∈ collection_name_set (Example.response_of ["b"]).
Proof.
  apply (find_collisions_no_duplicates
           Example.clients (NameList ["b"; "a"; "b"]) (Example.response_of ["b"])).
  vm_compute. reflexivity.
Defined.

Lemma migrate_policy_without_collisions_witness :
  migrate 10 (Some ["a"; "c"]) RAISE 2 Example.clients
  = migrate 10 (Some ["a"; "c"]) SKIP 2 Example.clients.
Proof.
  apply (migrate_policy_without_collisions
           10 (Some ["a"; "c"]) 2 Example.clients (NameList ["a"; "c"])
           Example.clients [(Source, GetCollections)]
           Example.clients [(Dest, GetCollections)] RAISE SKIP).
  - vm_compute. reflexivity.
  - vm_compute. reflexivity.
Defined.

Lemma migrate_writes_selected_only_witness :
  omap written Runs.recreate_calls
  = ["c"; "c"; "c"; "c"; "a"; "a"; "a"; "a"; "a"; "a"; "b"; "b"; "b"; "b"]
  /\ forall call n,
      call ∈ Runs.recreate_calls -> written call = Some n ->
      n ∈ set_of (NameSet (collection_name_set (Example.response_of ["c"; "a"; "b"]))).
Proof.
  split; [reflexivity|].
  apply (migrate_writes_selected_only
           10 None RECREATE 2 Example.clients
           (NameSet (collection_name_set (Example.response_of ["c"; "a"; "b"])))
           Example.clients [(Source, GetCollections)]
           (Return tt) Runs.recreate_clients Runs.recreate_calls).
  - vm_compute. reflexivity.
  - vm_compute. reflexivity.
Defined.

Lemma migrate_recreate_overwrites_witness :
  let names := NameSet (collection_name_set (Example.response_of ["c"; "a"; "b"])) in
  omap recreated Runs.recreate_calls = elements (set_of names ∖ list_to_set ["b"]) ++ ["b"]
  /\ omap recreated Runs.recreate_calls ≡ₚ elements (set_of names)
  /\ forall n, n ∈ ["b"] ->
       exists before run after (ca cb : Example.Clients),
         Runs.recreate_calls = before ++ run ++ after
         /\ migrate_collection 10 n 2 ca = Some (Return tt, cb, run).
Proof.
  intros names.
  apply (migrate_recreate_overwrites
           10 None 2 Example.clients names
           Example.clients [(Source, GetCollections)]
           ["b"] Example.clients [(Dest, GetCollections)]
           Runs.recreate_clients Runs.recreate_calls).
  - vm_compute. reflexivity.
  - vm_compute. reflexivity.
  - vm_compute. reflexivity.
Defined.

Lemma copy_stops_at_falsy_cursor_witness :
  copy_pages 10 "a" 0 Runs.clients_with_a
  = Some (Return tt,
          {| source_client := Example.source; dest_client := Runs.touched_a |},
          [(Source, Scroll "a" PyNone 0 true); (Dest, UploadRecords "a" [])]).
Proof.
  apply (copy_stops_at_falsy_cursor
           10 "a" 0 Runs.clients_with_a [] (PyInt 0) Runs.touched_a).
  - vm_compute. reflexivity.
  - vm_compute. reflexivity.
  - vm_compute. reflexivity.
Defined.

Lemma migrate_collection_scroll_raises_witness :
  migrate_collection 10 "z" 2 Example.clients
  = Some (Raise (ValueError "Collection not found: " (ShownList ["z"])),
          Example.clients, [(Source, Scroll "z" PyNone 2 true)]).
Proof.
  apply (migrate_collection_scroll_raises
           10 "z" 2 Example.clients
           (ValueError "Collection not found: " (ShownList ["z"]))).
  vm_compute. reflexivity.
Defined.

Lemma migrate_stops_at_first_exception_witness :
  migrate 10 None RECREATE 0 Example.clients
  = Some (Raise (AssertionError "Migration failed, vectors count are not equal: "
                                (ShownCounts 5 0)),
          Runs.failed_a,
          [(Source, GetCollections); (Dest, GetCollections)]
          ++ Runs.migrate_c_calls ++ Runs.failed_a_calls)
  /\ omap written Runs.failed_a_calls
     = ["a"; "a"; "a"; "a"].
Proof.
  split; [|reflexivity].
  apply (migrate_stops_at_first_exception
           10 None RECREATE 0 Example.clients
           (NameSet (collection_name_set (Example.response_of ["c"; "a"; "b"])))
           Example.clients [(Source, GetCollections)]
           ["b"] Example.clients [(Dest, GetCollections)]
           ["c"] "a" ["b"] Runs.migrated_c Runs.failed_a
           Runs.migrate_c_calls Runs.failed_a_calls
           (AssertionError "Migration failed, vectors count are not equal: "
                           (ShownCounts 5 0))).
  - vm_compute. reflexivity.
  - vm_compute. reflexivity.
  - reflexivity.
  - vm_compute. reflexivity.
  - vm_compute. reflexivity.
  - vm_compute. reflexivity.
Defined.

Lemma copy_pages_follows_cursors_witness :
  exists t,
    copy_pages 2 "a" 2 Runs.clients_with_a
    = Some (Return tt,
            {| source_client := Example.source;
               dest_client := dest_client Runs.copied_a |}, t)
    /\ t = (Source, Scroll "a" PyNone 2 true)
           :: (Dest, UploadRecords "a" [1; 2]%nat)
           :: page_calls "a" 2 (PyInt 2) [([3; 4]%nat, PyInt 4); ([5%nat], PyNone)]
    /\ uploaded_records t
       = [1; 2]%nat
         ++ concat (fst <$> [([3; 4]%nat, PyInt 4); ([5%nat], PyNone)]).
Proof.
  apply (copy_pages_follows_cursors
           2 "a" 2 Runs.clients_with_a [1; 2]%nat (PyInt 2)
           [([3; 4]%nat, PyInt 4); ([5%nat], PyNone)] (dest_client Runs.copied_a)).
  - vm_compute. reflexivity.
  - vm_compute. repeat split.
  - vm_compute. reflexivity.
  - simpl. lia.
Defined.

Lemma migrate_collection_upload_raises_witness :
  migrate_collection 10 "a" 2 Example.clients
  = Some (Raise (ValueError "Collection not found: " (ShownList ["a"])),
          {| source_client := Example.source; dest_client := Example.dest |},
          [(Source, Scroll "a" PyNone 2 true); (Dest, UploadRecords "a" [1; 2]%nat)]).
Proof.
  apply (migrate_collection_upload_raises
           10 "a" 2 Example.clients [1; 2]%nat (PyInt 2)
           (ValueError "Collection not found: " (ShownList ["a"])) Example.dest).
  - vm_compute. reflexivity.
  - vm_compute. reflexivity.
Defined.

